(** * The deprecated Docker integration of the agent's bootstrap

    A shallow embedding of [bootstrap/docker.go]: the detection of the
    legacy Docker environment variables, the synthesis of the [docker] and
    [docker-compose] command lines, the run phase and the teardown.

    Go strings are byte strings: they are modelled by [string], whose
    characters are the 8-bit [ascii].  The shell the code drives is modelled
    by a record holding the environment and the chronological list of what
    the shell printed and ran; the functions of the source are written in a
    state monad over that record. *)

From Stdlib Require Import ZArith Lia Ascii.
From stdpp Require Import base option list gmap strings.

Local Open Scope Z_scope.

(** ** Go's [unicode/utf8] and [unicode]: what [strings.Fields] relies on *)

Module utf8.

Definition byte (c : ascii) : Z := Z.of_N (Ascii.N_of_ascii c).

Definition RuneError : Z := 0xFFFD.

(** The table [first] together with [acceptRanges]: for a leading byte of
    a multi-byte sequence, the length of the sequence and the range the
    second byte must lie in; [None] is the table's [xx] (a byte that
    cannot start a sequence). Bytes below [0x80] are handled apart. *)
Definition first (s0 : Z) : option (nat * Z * Z) :=
  if s0 <? 0xC2 then None
  else if s0 <? 0xE0 then Some (2%nat, 0x80, 0xBF)
  else if s0 =? 0xE0 then Some (3%nat, 0xA0, 0xBF)
  else if s0 <? 0xED then Some (3%nat, 0x80, 0xBF)
  else if s0 =? 0xED then Some (3%nat, 0x80, 0x9F)
  else if s0 <? 0xF0 then Some (3%nat, 0x80, 0xBF)
  else if s0 =? 0xF0 then Some (4%nat, 0x90, 0xBF)
  else if s0 <? 0xF4 then Some (4%nat, 0x80, 0xBF)
  else if s0 =? 0xF4 then Some (4%nat, 0x80, 0x8F)
  else None.

Definition locb : Z := 0x80.
Definition hicb : Z := 0xBF.
Definition maskx : Z := 0x3F.
Definition mask2 : Z := 0x1F.
Definition mask3 : Z := 0x0F.
Definition mask4 : Z := 0x07.

(** [utf8.DecodeRuneInString]: the first rune of [s] and its width in
    bytes; an invalid encoding yields [(RuneError, 1)]. *)
Definition DecodeRuneInString (s : string) : Z * nat :=
  match s with
  | EmptyString => (RuneError, 0%nat)
  | String c0 t0 =>
    let s0 := byte c0 in
    if s0 <? 0x80 then (s0, 1%nat)
    else
      match first s0 with
      | None => (RuneError, 1%nat)
      | Some (sz, lo, hi) =>
        if (String.length s <? sz)%nat then (RuneError, 1%nat)
        else
          match t0 with
          | EmptyString => (RuneError, 1%nat)
          | String c1 t1 =>
            let s1 := byte c1 in
            if (s1 <? lo) || (hi <? s1) then (RuneError, 1%nat)
            else if (sz <=? 2)%nat
            then (Z.lor (Z.shiftl (Z.land s0 mask2) 6) (Z.land s1 maskx),
                  2%nat)
            else
              match t1 with
              | EmptyString => (RuneError, 1%nat)
              | String c2 t2 =>
                let s2 := byte c2 in
                if (s2 <? locb) || (hicb <? s2) then (RuneError, 1%nat)
                else if (sz <=? 3)%nat
                then (Z.lor (Z.lor (Z.shiftl (Z.land s0 mask3) 12)
                                   (Z.shiftl (Z.land s1 maskx) 6))
                            (Z.land s2 maskx), 3%nat)
                else
                  match t2 with
                  | EmptyString => (RuneError, 1%nat)
                  | String c3 _ =>
                    let s3 := byte c3 in
                    if (s3 <? locb) || (hicb <? s3) then (RuneError, 1%nat)
                    else (Z.lor (Z.lor (Z.lor
                                   (Z.shiftl (Z.land s0 mask4) 18)
                                   (Z.shiftl (Z.land s1 maskx) 12))
                                   (Z.shiftl (Z.land s2 maskx) 6))
                                (Z.land s3 maskx), 4%nat)
                  end
              end
          end
      end
  end.

(** [for i, r := range s]: the runes of [s] in order, each with the bytes
    it was decoded from. [skip] counts the bytes of the current rune that
    are still to be stepped over. *)
Fixpoint range_go (skip : nat) (s : string) : list (Z * string) :=
  match s with
  | EmptyString => []
  | String _ t =>
    match skip with
    | S k => range_go k t
    | O =>
      let '(r, w) := DecodeRuneInString s in
      (r, String.substring 0 w s) :: range_go (w - 1) t
    end
  end.

Definition range (s : string) : list (Z * string) := range_go 0 s.

End utf8.

Module unicode.

(** [unicode.IsSpace]: the Latin-1 spaces, then the rest of the
    [White_Space] table. *)
Definition IsSpace (r : Z) : bool :=
  if r <=? 0xFF
  then (9 <=? r) && (r <=? 13) || (r =? 0x20) || (r =? 0x85) || (r =? 0xA0)
  else (r =? 0x1680) || (0x2000 <=? r) && (r <=? 0x200A)
       || (r =? 0x2028) || (r =? 0x2029) || (r =? 0x202F)
       || (r =? 0x205F) || (r =? 0x3000).

End unicode.

(** ** Go's [strings], as far as the source calls it *)

Module strings.

Definition flush (cur : option string) : list string :=
  match cur with Some f => [f] | None => [] end.

(** The loop of [strings.FieldsFunc]: [cur] is the field being read, if
    any (the source's [start >= 0]). *)
Fixpoint fields_go (f : Z -> bool) (cur : option string)
    (rs : list (Z * string)) : list string :=
  match rs with
  | [] => flush cur
  | (r, bs) :: rs' =>
    if f r then flush cur ++ fields_go f None rs'
    else fields_go f (Some (from_option (fun c => c +:+ bs) bs cur)) rs'
  end.

Definition FieldsFunc (s : string) (f : Z -> bool) : list string :=
  fields_go f None (utf8.range s).

(** [strings.Fields(s)]: the maximal runs of runes that are not white
    space. Go has a fast path for all-ASCII strings, with the same
    result as [FieldsFunc(s, unicode.IsSpace)]. *)
Definition Fields (s : string) : list string :=
  FieldsFunc s unicode.IsSpace.

(** [strings.Split(s, sep)] for a separator [sep] of one byte: the pieces
    of [s] between the occurrences of that byte, empty pieces included.
    [cur] is the piece being read. *)
Fixpoint split_go (sep : ascii) (cur : string) (s : string) : list string :=
  match s with
  | EmptyString => [cur]
  | String c t =>
    if Ascii.eqb c sep then cur :: split_go sep "" t
    else split_go sep (cur +:+ String c "") t
  end.

Definition Split (s : string) (sep : ascii) : list string :=
  split_go sep "" s.

(** [strings.Replace(s, old, new, n)] for an [old] of one byte: the first
    [n] occurrences of the byte are replaced by [new], all of them when
    [n < 0] (here [limit = None]). *)
Fixpoint replace_go (old : ascii) (new : string) (limit : option nat)
    (s : string) : string :=
  match s with
  | EmptyString => ""
  | String c t =>
    if Ascii.eqb c old then
      match limit with
      | None => new +:+ replace_go old new None t
      | Some (S k) => new +:+ replace_go old new (Some k) t
      | Some O => s
      end
    else String c (replace_go old new limit t)
  end.

Definition Replace (s : string) (old : ascii) (new : string) (n : Z)
    : string :=
  if String.eqb (String old "") new then s
  else replace_go old new (if n <? 0 then None else Some (Z.to_nat n)) s.

(** [strings.Join(elems, sep)], used to state how a value is built from
    its parts. *)
Fixpoint Join (elems : list string) (sep : string) : string :=
  match elems with
  | [] => ""
  | [e] => e
  | e :: es => e +:+ sep +:+ Join es sep
  end.

End strings.

(** ** The executor: environment and shell *)

(** Go's [error], represented by its message; [None] of [option error] is
    [nil]. *)
Definition error : Type := string.

Definition errors_New (msg : string) : error := msg.

(** What the shell did, in chronological order. *)
Inductive Event : Type :=
| Printed (msg : string)
| Headed (msg : string)
| Warned (msg : string)
| Ran (command : string) (args : list string).

(** Modelled from the spec: the type [shell.Shell] of the agent is not part
    of the source file. Following the spec's executor ("run", "getEnv",
    "setEnv", "currentWorkingDirectory", "printInfo/printWarning") a shell
    holds the environment, "a mapping from variable name (string) to string
    value", and the working directory; [Log] records the messages printed
    and the commands run. *)
Record Shell : Type := mkShell {
  Env : gmap string string;
  Wd : string;
  Log : list Event
}.

(** Computations over the shell. *)
Definition M (A : Type) : Type := Shell -> A * Shell.

#[global] Instance M_ret : MRet M := fun A a sh => (a, sh).

#[global] Instance M_bind : MBind M :=
  fun A B k m sh => let '(a, sh') := m sh in k a sh'.

Definition emit (e : Event) : M unit :=
  fun sh => (tt, mkShell (Env sh) (Wd sh) (Log sh ++ [e])).

(** Modelled from the spec: [sh.Env.Exists] of the agent's environment
    type, which is not part of the source file; a variable exists when the
    mapping has an entry for it. *)
Definition Env_Exists (k : string) : M bool :=
  fun sh => (bool_decide (is_Some (Env sh !! k)), sh).

(** Modelled from the spec: [sh.Env.Get], "getEnv(name) -> (value,
    present)"; the value of an absent variable is the empty string. *)
Definition Env_Get (k : string) : M (string * bool) :=
  fun sh =>
    (match Env sh !! k with Some v => (v, true) | None => ("", false) end, sh).

(** Modelled from the spec: [sh.Env.Set], "setEnv(name, value)". *)
Definition Env_Set (k v : string) : M unit :=
  fun sh => (tt, mkShell (<[k := v]> (Env sh)) (Wd sh) (Log sh)).

(** Modelled from the spec: [sh.Getwd], "currentWorkingDirectory() ->
    path". *)
Definition Getwd : M string := fun sh => (Wd sh, sh).

(** Modelled from the spec: [sh.Printf], [sh.Headerf] and [sh.Warningf],
    "printInfo/printWarning(format, args...)"; the message is recorded as
    formatted. *)
Definition Printf (msg : string) : M unit := emit (Printed msg).

(** Modelled from the spec: see [Printf]. *)
Definition Headerf (msg : string) : M unit := emit (Headed msg).

(** Modelled from the spec: see [Printf]. *)
Definition Warningf (msg : string) : M unit := emit (Warned msg).

(** The commands a shell has run, oldest first. *)
Definition commands (sh : Shell) : list (string * list string) :=
  omap (fun e => match e with Ran c a => Some (c, a) | _ => None end) (Log sh).

(** *** Stand-ins for the executor's parts outside this file

    They instantiate the statements below at concrete inputs. *)

(** A reading of boolean variables: [true] and [1] are true, [false] and
    [0] are false, anything else is the default. The agent's own reading
    knows more spellings; on unset variables the two agree. *)
Definition simpleGetBool (e : gmap string string) (k : string) (d : bool)
    : bool :=
  match e !! k with
  | Some v =>
    if String.eqb v "true" || String.eqb v "1" then true
    else if String.eqb v "false" || String.eqb v "0" then false
    else d
  | None => d
  end.

(** Every command succeeds. *)
Definition execOk (sh : Shell) (command : string) (args : list string)
    : option error := None.

(** [docker-compose ... down] fails, every other command succeeds. *)
Definition execDownFails (sh : Shell) (command : string) (args : list string)
    : option error :=
  if bool_decide (last args = Some "down") then Some "exit status 1"
  else None.

(** Every command fails. *)
Definition execFails (sh : Shell) (command : string) (args : list string)
    : option error := Some "exit status 1".

Fixpoint stripPrefix (p s : string) : option string :=
  match p, s with
  | EmptyString, _ => Some s
  | String a p', String b s' =>
    if Ascii.eqb a b then stripPrefix p' s' else None
  | String _ _, EmptyString => None
  end.

(** A path below the working directory is made relative by dropping the
    directory; other paths are refused. The real [filepath.Rel] answers
    some of those through [..]; it refuses as well when only one of the
    two paths is absolute. *)
Definition relBelow (wd path : string) : string + error :=
  match stripPrefix (wd +:+ "/") path with
  | Some r => inl r
  | None => inr ("Rel: can't make " +:+ path +:+ " relative to " +:+ wd)
  end.

(** Shells for the scenarios: the Docker one of the specification, one
    with both activators, one with a lone compose flag, one with nothing
    set, and the two a run leaves behind for teardown. *)
Definition dockerShell : Shell :=
  mkShell (<["BUILDKITE_DOCKER" := "1"]> (<["BUILDKITE_JOB_ID" := "42"]> ∅))
          "/build" [].

Definition bothShell : Shell :=
  mkShell (<["BUILDKITE_DOCKER_COMPOSE_CONTAINER" := "app"]>
             (<["BUILDKITE_DOCKER" := "1"]>
                (<["BUILDKITE_JOB_ID" := "abc-123-def"]> ∅)))
          "/build" [].

Definition loneFlagShell : Shell :=
  mkShell (<["BUILDKITE_DOCKER_COMPOSE_FILE" := "ci.yml"]> ∅) "/build" [].

Definition emptyShell : Shell := mkShell ∅ "/build" [].

Definition containerShell : Shell :=
  mkShell (<["DOCKER_CONTAINER" := "buildkite_42_container"]> ∅) "/build" [].

Definition projectShell : Shell :=
  mkShell (<["COMPOSE_PROJ_NAME" := "buildkiteabc123def"]> ∅) "/build" [].

Definition composeFilesShell : Shell :=
  mkShell (<["BUILDKITE_DOCKER_COMPOSE_FILE" :=
               "a.yml:b.yml  c.yml:d.yml"]> ∅) "/build" [].

(** [build] fails, whether of [docker] or of [docker-compose]; every other
    command succeeds. *)
Definition execBuildFails (sh : Shell) (command : string)
    (args : list string) : option error :=
  if bool_decide ("build" ∈ args) then Some "exit status 1" else None.

(** More shells: a compose one, one with only [BUILDKITE_DOCKER_FILE], one
    whose compose file variable is blank, one with a stale
    [DOCKER_CONTAINER] beside a compose project. *)
Definition composeShell : Shell :=
  mkShell (<["BUILDKITE_DOCKER_COMPOSE_CONTAINER" := "app"]>
             (<["BUILDKITE_JOB_ID" := "abc-123-def"]> ∅))
          "/build" [].

Definition dockerFileOnlyShell : Shell :=
  mkShell (<["BUILDKITE_DOCKER_FILE" := "ci/Dockerfile"]> ∅) "/build" [].

Definition blankFilesShell : Shell :=
  mkShell (<["BUILDKITE_DOCKER_COMPOSE_FILE" := "  "]> ∅) "/build" [].

Definition customDockerShell : Shell :=
  mkShell (<["BUILDKITE_DOCKER" := "true"]>
             (<["BUILDKITE_DOCKER_FILE" := "ci/Dockerfile"]>
                (<["BUILDKITE_JOB_ID" := "a-1"]> ∅)))
          "/build" [].

Definition staleShell : Shell :=
  mkShell (<["BUILDKITE_DOCKER_COMPOSE_CONTAINER" := "app"]>
             (<["DOCKER_CONTAINER" := "buildkite_41_container"]>
                (<["BUILDKITE_JOB_ID" := "42"]> ∅)))
          "/build" [].

Definition colonFilesShell : Shell :=
  mkShell (<["BUILDKITE_DOCKER_COMPOSE_FILE" := ":a.yml::b.yml"]> ∅)
          "/build" [].

(** ** The source: [bootstrap/docker.go] *)

(** A tagless [switch]: the cases are tried from the top and the first
    one whose condition holds runs, alone. *)
Record Case (A : Type) : Type := mkCase { cond : M bool; body : M A }.

Arguments mkCase {A} cond body.
Arguments cond {A} c.
Arguments body {A} c.

Fixpoint switch {A : Type} (cases : list (Case A)) (otherwise : M A) : M A :=
  match cases with
  | [] => otherwise
  | c :: cs => b ← cond c; if b : bool then body c else switch cs otherwise
  end.

(** The index of the case a [switch] runs in a shell, if any. *)
Fixpoint selected {A : Type} (cases : list (Case A)) (sh : Shell)
    : option nat :=
  match cases with
  | [] => None
  | c :: cs => if fst (cond c sh) then Some 0%nat else S <$> selected cs sh
  end.

(** How a [switch] case of a function ends: with a [return], or by leaving
    the [switch]. *)
Inductive Outcome : Type :=
| Return (err : option error)
| Leave.

Definition dockerEnv : list string :=
  [ "BUILDKITE_DOCKER_COMPOSE_CONTAINER";
    "BUILDKITE_DOCKER_COMPOSE_FILE";
    "BUILDKITE_DOCKER";
    "BUILDKITE_DOCKER_FILE";
    "BUILDKITE_DOCKER_COMPOSE_BUILD_ALL";
    "BUILDKITE_DOCKER_COMPOSE_LEAVE_VOLUMES" ].

Fixpoint anyExists (ks : list string) : M bool :=
  match ks with
  | [] => mret false
  | k :: ks' => b ← Env_Exists k; if b : bool then mret true else anyExists ks'
  end.

Definition hasDeprecatedDockerIntegration : M bool := anyExists dockerEnv.

(** The [-f] arguments [runDockerCompose] appends, chunk by chunk and file
    by file. *)
Definition composeFileArgs (composeFile : string) : list string :=
  foldl (fun args chunk =>
           foldl (fun args file => args ++ ["-f"; file]) args
                 (strings.Split chunk ":"))
        [] (strings.Fields composeFile).

(** The texts of the warnings. *)
Definition composeDeprecation : string :=
  "BUILDKITE_DOCKER_COMPOSE_CONTAINER is set, which is deprecated in Agent v3 and will be removed in v4. Consider using the :docker: docker-compose plugin instead at https://github.com/buildkite-plugins/docker-compose-buildkite-plugin.".

Definition dockerDeprecation : string :=
  "BUILDKITE_DOCKER is set, which is deprecated in Agent v3 and will be removed in v4. Consider using the docker plugin instead at https://github.com/buildkite-plugins/docker-buildkite-plugin.".

Definition notSetAdvice : string :=
  ", which it requires. You should be able to safely remove this from your pipeline.".

(** The job id "with all hyphens removed", in the words of the
    specification. *)
Fixpoint removeHyphens (s : string) : string :=
  match s with
  | EmptyString => ""
  | String c t =>
    if Ascii.eqb c "-" then removeHyphens t else String c (removeHyphens t)
  end.

(** The [-f <path>] pairs of a list of paths, in the order of the list. *)
Definition fPairs (paths : list string) : list string :=
  flat_map (fun path => ["-f"; path]) paths.

(** *** Values of [BUILDKITE_DOCKER_COMPOSE_FILE] built from their parts *)

(** [t] is empty or starts with a byte that is not a continuation byte of
    UTF-8. *)
Definition cleanStart (t : string) : bool :=
  match t with
  | EmptyString => true
  | String d _ => negb ((0x80 <=? utf8.byte d) && (utf8.byte d <=? 0xBF))
  end.

(** The bytes a list of runes was decoded from. *)
Definition runeBytes (rs : list (Z * string)) : string :=
  foldr (fun rb acc => rb.2 +:+ acc) "" rs.

Fixpoint dropBytes (n : nat) (s : string) : string :=
  match n, s with
  | O, _ => s
  | S _, EmptyString => ""
  | S k, String _ t => dropBytes k t
  end.


(** No rune of [s] is white space; every rune of [s] is. *)
Definition noSpace (s : string) : bool :=
  forallb (fun rb => negb (unicode.IsSpace rb.1)) (utf8.range s).

Definition allSpace (s : string) : bool :=
  forallb (fun rb => unicode.IsSpace rb.1) (utf8.range s).

Fixpoint hasByte (c : ascii) (s : string) : bool :=
  match s with
  | EmptyString => false
  | String b t => Ascii.eqb b c || hasByte c t
  end.

(** How many times the byte [c] occurs in [s]. *)
Fixpoint countByte (c : ascii) (s : string) : nat :=
  match s with
  | EmptyString => 0%nat
  | String b t => ((if Ascii.eqb b c then 1 else 0) + countByte c t)%nat
  end.

Definition isEmpty (s : string) : bool :=
  match s with EmptyString => true | String _ _ => false end.

(** A path of a chunk: no white space and no colon in it. *)
Definition isPath (p : string) : bool := noSpace p && negb (hasByte ":" p).

(** A value is described by its chunks, each given by its paths and by the
    white space that follows it. The chunks are not empty, and the white
    space after a chunk is empty at most after the last one. *)
Fixpoint wellFormed (parts : list (list string * string)) : bool :=
  match parts with
  | [] => true
  | (paths, sep) :: ps =>
    negb (isEmpty (strings.Join paths ":"))
    && forallb isPath paths
    && allSpace sep
    && implb (isEmpty sep) (match ps with [] => true | _ => false end)
    && wellFormed ps
  end.

Fixpoint spaced (parts : list (list string * string)) : string :=
  match parts with
  | [] => ""
  | (paths, sep) :: ps => strings.Join paths ":" +:+ sep +:+ spaced ps
  end.

Section Bridge.

(** What the file takes from outside: [sh.Env.GetBool] of the agent's
    environment, the outcome [sh.Run] gets from an external command (it may
    depend on all the shell has done), [filepath.Rel] and
    [os.PathSeparator]. *)
Variable GetBool : gmap string string -> string -> bool -> bool.
Variable exec : Shell -> string -> list string -> option error.
Variable filepath_Rel : string -> string -> string + error.
Variable PathSeparator : ascii.

Definition Env_GetBool (k : string) (d : bool) : M bool :=
  fun sh => (GetBool (Env sh) k d, sh).

Definition Run (command : string) (args : list string) : M (option error) :=
  fun sh =>
    (exec sh command args,
     mkShell (Env sh) (Wd sh) (Log sh ++ [Ran command args])).

Definition runDockerCompose (projectName : string)
    (commandArgs : list string) : M (option error) :=
  let args := [] in
  '(composeFile, _) ← Env_Get "BUILDKITE_DOCKER_COMPOSE_FILE";
  let composeFile :=
    if String.eqb composeFile "" then "docker-compose.yml"
    else composeFile in
  let args := args ++ composeFileArgs composeFile in
  let args := args ++ ["-p"; projectName] in
  debug ← Env_GetBool "BUILDKITE_AGENT_DEBUG" false;
  let args := if debug : bool then args ++ ["--verbose"] else args in
  let args := args ++ commandArgs in
  Run "docker-compose" args.

Definition runDockerCommand (scriptPath : string) : M (option error) :=
  '(jobId, _) ← Env_Get "BUILDKITE_JOB_ID";
  let dockerContainer := "buildkite_" +:+ jobId +:+ "_container" in
  let dockerImage := "buildkite_" +:+ jobId +:+ "_image" in
  '(dockerFile, _) ← Env_Get "BUILDKITE_DOCKER_FILE";
  let dockerFile :=
    if String.eqb dockerFile "" then "Dockerfile" else dockerFile in
  Env_Set "DOCKER_CONTAINER" dockerContainer;;
  Env_Set "DOCKER_IMAGE" dockerImage;;
  Printf ("~~~ :docker: Building Docker image " +:+ dockerImage);;
  err ← Run "docker" ["build"; "-f"; dockerFile; "-t"; dockerImage; "."];
  match err with
  | Some e => mret (Some e)
  | None =>
    Headerf ":docker: Running command (in Docker container)";;
    err ← Run "docker"
              ["run"; "--name"; dockerContainer; dockerImage; scriptPath];
    match err with
    | Some e => mret (Some e)
    | None => mret None
    end
  end.

Definition runDockerComposeCommand (scriptPath : string)
    : M (option error) :=
  '(composeContainer, _) ← Env_Get "BUILDKITE_DOCKER_COMPOSE_CONTAINER";
  '(jobId, _) ← Env_Get "BUILDKITE_JOB_ID";
  let projectName := strings.Replace ("buildkite" +:+ jobId) "-" "" (-1) in
  Env_Set "COMPOSE_PROJ_NAME" projectName;;
  Headerf ":docker: Building Docker images";;
  buildAll ← Env_GetBool "BUILDKITE_DOCKER_COMPOSE_BUILD_ALL" false;
  err ← (if buildAll : bool
         then runDockerCompose projectName ["build"; "--pull"]
         else runDockerCompose projectName
                ["build"; "--pull"; composeContainer]);
  match err with
  | Some e => mret (Some e)
  | None =>
    Headerf ":docker: Running command (in Docker Compose container)";;
    runDockerCompose projectName ["run"; composeContainer; scriptPath]
  end.

Definition warnNotSet (k1 k2 : string) : M unit :=
  Warningf (k1 +:+ " is set, but without " +:+ k2
            +:+ notSetAdvice).

(** The cases of the [switch] of [runDeprecatedDockerIntegration], as
    written. *)
Definition dockerSwitch (relativePathToDot : string)
    : list (Case Outcome) :=
  [ mkCase (Env_Exists "BUILDKITE_DOCKER_COMPOSE_CONTAINER")
      (Warningf composeDeprecation;;
       err ← runDockerComposeCommand relativePathToDot;
       mret (Return err));
    mkCase (Env_Exists "BUILDKITE_DOCKER")
      (Warningf dockerDeprecation;;
       err ← runDockerCommand relativePathToDot;
       mret (Return err));
    mkCase (Env_Exists "BUILDKITE_DOCKER_COMPOSE_FILE")
      (warnNotSet "BUILDKITE_DOCKER_COMPOSE_FILE"
                  "BUILDKITE_DOCKER_COMPOSE_CONTAINER";;
       mret Leave);
    mkCase (Env_Exists "BUILDKITE_DOCKER_COMPOSE_BUILD_ALL")
      (warnNotSet "BUILDKITE_DOCKER_COMPOSE_BUILD_ALL"
                  "BUILDKITE_DOCKER_COMPOSE_CONTAINER";;
       mret Leave);
    mkCase (Env_Exists "BUILDKITE_DOCKER_COMPOSE_LEAVE_VOLUMES")
      (warnNotSet "BUILDKITE_DOCKER_COMPOSE_LEAVE_VOLUMES"
                  "BUILDKITE_DOCKER_COMPOSE_CONTAINER";;
       mret Leave);
    mkCase (Env_Exists "BUILDKITE_DOCKER_COMPOSE_LEAVE_VOLUMES")
      (warnNotSet "BUILDKITE_DOCKER_COMPOSE_LEAVE_VOLUMES"
                  "BUILDKITE_DOCKER_COMPOSE_CONTAINER";;
       mret Leave) ].

(** [runDeprecatedDockerIntegration], with the cases of its [switch] as
    a parameter. *)
Definition runDeprecatedDockerIntegrationWith
    (cases : string -> list (Case Outcome)) (scriptPath : string)
    : M (option error) :=
  wd ← Getwd;
  match filepath_Rel wd scriptPath with
  | inr err => mret (Some err)
  | inl relativePath =>
    let relativePathToDot :=
      "." +:+ String PathSeparator "" +:+ relativePath in
    o ← switch (cases relativePathToDot) (mret Leave);
    match o with
    | Return err => mret err
    | Leave => mret (Some (errors_New "Failed to find any docker env"))
    end
  end.

Definition runDeprecatedDockerIntegration (scriptPath : string)
    : M (option error) :=
  runDeprecatedDockerIntegrationWith dockerSwitch scriptPath.

(** The [switch] without its last case, the second one on
    [BUILDKITE_DOCKER_COMPOSE_LEAVE_VOLUMES]. *)
Definition dockerSwitchDeduplicated (relativePathToDot : string)
    : list (Case Outcome) :=
  removelast (dockerSwitch relativePathToDot).

Definition tearDownDeprecatedDockerIntegration : M (option error) :=
  '(container, ok) ← Env_Get "DOCKER_CONTAINER";
  if ok : bool then
    Printf "~~~ Cleaning up Docker containers";;
    err ← Run "docker" ["rm"; "-f"; "-v"; container];
    match err with
    | Some e => mret (Some e)
    | None => mret None
    end
  else
    '(projectName, ok) ← Env_Get "COMPOSE_PROJ_NAME";
    if ok : bool then
      Printf "~~~ Cleaning up Docker containers";;
      runDockerCompose projectName ["kill"];;
      leave ← Env_GetBool "BUILDKITE_DOCKER_COMPOSE_LEAVE_VOLUMES" false;
      (if leave : bool
       then runDockerCompose projectName ["rm"; "--force"; "--all"]
       else runDockerCompose projectName ["rm"; "--force"; "--all"; "-v"]);;
      runDockerCompose projectName ["down"]
    else mret None.


(** *** Notions the statements use *)

(** The shell after more events. *)
Definition logged (sh : Shell) (es : list Event) : Shell :=
  mkShell (Env sh) (Wd sh) (Log sh ++ es).

(** The argument list [runDockerCompose] hands to [docker-compose]. *)
Definition composeArgv (e : gmap string string) (projectName : string)
    (commandArgs : list string) : list string :=
  composeFileArgs
    (match e !! "BUILDKITE_DOCKER_COMPOSE_FILE" with
     | Some "" | None => "docker-compose.yml"
     | Some v => v
     end)
  ++ ["-p"; projectName]
  ++ (if GetBool e "BUILDKITE_AGENT_DEBUG" false then ["--verbose"] else [])
  ++ commandArgs.

Definition present (sh : Shell) (k : string) : bool :=
  bool_decide (is_Some (Env sh !! k)).

Definition genericFailure : option error :=
  Some (errors_New "Failed to find any docker env").

Definition warnedNotSet (sh : Shell) (k : string) : Shell :=
  logged sh [Warned (k +:+ " is set, but without "
                       +:+ "BUILDKITE_DOCKER_COMPOSE_CONTAINER"
                       +:+ notSetAdvice)].

(** The commands a teardown runs in an environment. *)
Definition tearDownCommands (e : gmap string string)
    : list (string * list string) :=
  match e !! "DOCKER_CONTAINER" with
  | Some container => [("docker", ["rm"; "-f"; "-v"; container])]
  | None =>
    match e !! "COMPOSE_PROJ_NAME" with
    | Some projectName =>
      [ ("docker-compose", composeArgv e projectName ["kill"]);
        ("docker-compose",
         composeArgv e projectName
           (["rm"; "--force"; "--all"]
            ++ (if GetBool e "BUILDKITE_DOCKER_COMPOSE_LEAVE_VOLUMES" false
                then [] else ["-v"])));
        ("docker-compose", composeArgv e projectName ["down"]) ]
    | None => []
    end
  end.

(** ** Properties *)

(** *** Strings *)


Lemma str_app_cons c s t : String c s +:+ t = String c (s +:+ t).
Proof. done. Qed.

Lemma str_app_nil_r s : s +:+ "" = s.
Proof. induction s as [|c s IH]; [done|]. by rewrite str_app_cons, IH. Qed.

Lemma str_app_assoc s t u : (s +:+ t) +:+ u = s +:+ t +:+ u.
Proof.
  induction s as [|c s IH]; [done|]. by rewrite !str_app_cons, IH.
Qed.

Lemma first_cases s0 sz lo hi :
  utf8.first s0 = Some (sz, lo, hi) ->
  (sz = 2%nat \/ sz = 3%nat \/ sz = 4%nat) /\ 0x80 <= lo /\ hi <= 0xBF.
Proof.
  unfold utf8.first. intros H.
  repeat case_match; simplify_eq; lia.
Qed.

(** The width of a rune is at least one byte and at most what is left. *)
Lemma DecodeRuneInString_width c t :
  let w := (utf8.DecodeRuneInString (String c t)).2 in
  (1 <= w <= S (String.length t))%nat.
Proof.
  cbv zeta. unfold utf8.DecodeRuneInString.
  repeat case_match; cbn [snd String.length]; lia.
Qed.

(** Decoding the first rune of [u] does not depend on what follows [u]
    when that starts a rune of its own, or when the rune decoded is a
    white space (a valid one, then). *)
Lemma DecodeRuneInString_app u t :
  u <> "" ->
  cleanStart t = true
  \/ unicode.IsSpace (utf8.DecodeRuneInString u).1 = true ->
  utf8.DecodeRuneInString (u +:+ t) = utf8.DecodeRuneInString u.
Proof.
  intros Hu H. destruct u as [|c0 u]; [done|]. clear Hu.
  rewrite str_app_cons.
  unfold utf8.DecodeRuneInString in *.
  destruct (utf8.byte c0 <? 128); [done|].
  destruct (utf8.first (utf8.byte c0)) as [[[sz lo] hi]|] eqn:Hf; [|done].
  apply first_cases in Hf as (Hsz & Hlo & Hhi).
  assert (forall d t' l h,
            cleanStart (String d t') = true -> 128 <= l -> h <= 191 ->
            (utf8.byte d <? l) || (h <? utf8.byte d) = true) as Hbad.
  { intros d t' l h Hd Hl Hh. cbn [cleanStart] in Hd.
    apply negb_true_iff, andb_false_iff in Hd.
    apply orb_true_iff. rewrite !Z.ltb_lt.
    destruct Hd as [Hd|Hd]; apply Z.leb_gt in Hd; lia. }
  destruct H as [H|H].
  - destruct t as [|d0 t]; [by rewrite str_app_nil_r|].
    pose proof (Hbad d0 t lo hi H Hlo Hhi) as B1.
    pose proof (Hbad d0 t utf8.locb utf8.hicb H) as B2.
    unfold utf8.locb, utf8.hicb in *. specialize (B2 ltac:(lia) ltac:(lia)).
    destruct Hsz as [-> | [-> | ->]];
      destruct u as [|c1 [|c2 [|c3 u]]];
      rewrite ?str_app_cons; change ("" +:+ String d0 t) with (String d0 t);
      cbn [String.length Nat.ltb Nat.leb];
      rewrite ?B1, ?B2;
      repeat (case_match; try done).
    all: rewrite ?B1, ?B2 in *; try done.
  - destruct Hsz as [-> | [-> | ->]];
      destruct u as [|c1 [|c2 [|c3 u]]];
      rewrite ?str_app_cons;
      cbn [String.length Nat.ltb Nat.leb] in *;
      repeat (case_match; try done).
Qed.

Lemma substring_app w s t :
  (w <= String.length s)%nat ->
  String.substring 0 w (s +:+ t) = String.substring 0 w s.
Proof.
  revert w. induction s as [|c s IH]; intros [|w] Hw; cbn in Hw;
    try done; try lia.
  - by destruct t.
  - rewrite str_app_cons. cbn [String.substring]. rewrite IH by lia. done.
Qed.

Lemma substring_dropBytes w s :
  (w <= String.length s)%nat ->
  String.substring 0 w s +:+ dropBytes w s = s.
Proof.
  revert w. induction s as [|c s IH]; intros [|w] Hw; cbn in Hw;
    try done; try lia.
  cbn [String.substring dropBytes]. rewrite str_app_cons, IH by lia. done.
Qed.

Lemma range_go_app skip s t :
  (skip <= String.length s)%nat ->
  cleanStart t = true
  \/ forallb (fun rb => unicode.IsSpace rb.1) (utf8.range_go skip s) = true ->
  utf8.range_go skip (s +:+ t) = utf8.range_go skip s ++ utf8.range t.
Proof.
  revert skip. induction s as [|c s IH]; intros skip Hskip H.
  - cbn in Hskip. by replace skip with 0%nat by lia.
  - rewrite str_app_cons. cbn [utf8.range_go]. cbn in Hskip.
    destruct skip as [|k].
    + rewrite <- str_app_cons.
      pose proof (DecodeRuneInString_width c s) as Hw. cbv zeta in Hw.
      rewrite DecodeRuneInString_app; [|done|].
      * cbn [utf8.range_go] in H.
        destruct (utf8.DecodeRuneInString (String c s)) as [r w].
        cbn [snd] in Hw. rewrite substring_app by (cbn; lia).
        rewrite IH; [done|lia|].
        destruct H as [H|H]; [by left|right].
        cbn [forallb] in H. by apply andb_true_iff in H as [_ H].
      * destruct H as [H|H]; [by left|right].
        cbn [utf8.range_go] in H.
        destruct (utf8.DecodeRuneInString (String c s)) as [r w].
        cbn [forallb] in H. by apply andb_true_iff in H as [H _].
    + apply IH; [lia|done].
Qed.

Lemma range_app s t :
  cleanStart t = true \/ allSpace s = true ->
  utf8.range (s +:+ t) = utf8.range s ++ utf8.range t.
Proof. intros H. apply range_go_app; [lia|done]. Qed.

Lemma runeBytes_range_go skip s :
  (skip <= String.length s)%nat ->
  runeBytes (utf8.range_go skip s) = dropBytes skip s.
Proof.
  revert skip. induction s as [|c s IH]; intros skip Hskip.
  - by destruct skip.
  - cbn [utf8.range_go]. cbn in Hskip. destruct skip as [|k].
    + pose proof (DecodeRuneInString_width c s) as Hw. cbv zeta in Hw.
      destruct (utf8.DecodeRuneInString (String c s)) as [r w].
      cbn [snd] in Hw. cbn [runeBytes foldr snd].
      fold (runeBytes (utf8.range_go (w - 1) s)). rewrite IH by lia.
      destruct w as [|w]; [lia|].
      cbn [String.substring dropBytes]. rewrite str_app_cons.
      replace (S w - 1)%nat with w by lia.
      rewrite substring_dropBytes by lia. done.
    + cbn [dropBytes]. apply IH. lia.
Qed.

Lemma runeBytes_range s : runeBytes (utf8.range s) = s.
Proof. unfold utf8.range. rewrite runeBytes_range_go by lia. done. Qed.

Lemma range_ascii c t :
  utf8.byte c < 0x80 ->
  utf8.range (String c t) = (utf8.byte c, String c "") :: utf8.range t.
Proof.
  intros Hc. unfold utf8.range. cbn [utf8.range_go].
  unfold utf8.DecodeRuneInString.
  apply Z.ltb_lt in Hc. rewrite Hc. by destruct t.
Qed.

Lemma allSpace_cleanStart s : allSpace s = true -> cleanStart s = true.
Proof.
  destruct s as [|d t]; [done|].
  unfold allSpace, utf8.range. cbn [utf8.range_go cleanStart].
  destruct (utf8.DecodeRuneInString (String d t)) as [r w] eqn:E.
  cbn [forallb fst]. intros [Hr _]%andb_true_iff.
  apply negb_true_iff, not_true_is_false. intros [H1 H2]%andb_true_iff.
  apply Z.leb_le in H1, H2.
  unfold utf8.DecodeRuneInString in E.
  assert ((utf8.byte d <? 128) = false) as E1 by (apply Z.ltb_ge; lia).
  assert (utf8.first (utf8.byte d) = None) as E2.
  { unfold utf8.first.
    assert ((utf8.byte d <? 194) = true) as -> by (apply Z.ltb_lt; lia).
    done. }
  rewrite E1, E2 in E. by simplify_eq.
Qed.

(** *** [strings.Fields] on a value given by its parts *)

Lemma fields_go_nospace f acc rs1 rs2 :
  forallb (fun rb => negb (f rb.1)) rs1 = true ->
  strings.fields_go f (Some acc) (rs1 ++ rs2) =
  strings.fields_go f (Some (acc +:+ runeBytes rs1)) rs2.
Proof.
  revert acc. induction rs1 as [|[r bs] rs1 IH]; intros acc H.
  - cbn. by rewrite str_app_nil_r.
  - cbn [forallb fst] in H. apply andb_true_iff in H as [Hr H].
    apply negb_true_iff in Hr.
    cbn [app strings.fields_go]. rewrite Hr. cbn [from_option].
    rewrite IH by done.
    change (runeBytes ((r, bs) :: rs1)) with (bs +:+ runeBytes rs1).
    by rewrite str_app_assoc.
Qed.

Lemma fields_go_chunk f s rs2 :
  s <> "" ->
  forallb (fun rb => negb (f rb.1)) (utf8.range s) = true ->
  strings.fields_go f None (utf8.range s ++ rs2) =
  strings.fields_go f (Some s) rs2.
Proof.
  intros Hs H. pose proof (runeBytes_range s) as Hb.
  destruct (utf8.range s) as [|[r bs] rs] eqn:E.
  - cbn in Hb. congruence.
  - cbn [forallb fst] in H. apply andb_true_iff in H as [Hr H].
    apply negb_true_iff in Hr.
    cbn [app strings.fields_go]. rewrite Hr. cbn [from_option].
    rewrite fields_go_nospace by done.
    change (runeBytes ((r, bs) :: rs)) with (bs +:+ runeBytes rs) in Hb.
    by rewrite Hb.
Qed.

Lemma fields_go_space_None f rs1 rs2 :
  forallb (fun rb => f rb.1) rs1 = true ->
  strings.fields_go f None (rs1 ++ rs2) = strings.fields_go f None rs2.
Proof.
  induction rs1 as [|[r bs] rs1 IH]; intros H; [done|].
  cbn [forallb fst] in H. apply andb_true_iff in H as [Hr H].
  cbn [app strings.fields_go]. rewrite Hr. by rewrite IH.
Qed.

Lemma fields_go_space_Some f acc rs1 rs2 :
  rs1 <> [] ->
  forallb (fun rb => f rb.1) rs1 = true ->
  strings.fields_go f (Some acc) (rs1 ++ rs2) =
  acc :: strings.fields_go f None rs2.
Proof.
  destruct rs1 as [|[r bs] rs1]; intros Hne H; [done|].
  cbn [forallb fst] in H. apply andb_true_iff in H as [Hr H].
  cbn [app strings.fields_go]. rewrite Hr.
  by rewrite fields_go_space_None.
Qed.

Lemma range_nonempty s : s <> "" -> utf8.range s <> [].
Proof.
  destruct s as [|c t]; [done|]. intros _. unfold utf8.range.
  cbn [utf8.range_go]. by destruct (utf8.DecodeRuneInString _).
Qed.

Lemma isEmpty_true s : isEmpty s = true <-> s = "".
Proof. by destruct s. Qed.

Lemma isEmpty_false s : isEmpty s = false <-> s <> "".
Proof. by destruct s. Qed.

Lemma noSpace_app s t :
  cleanStart t = true -> noSpace (s +:+ t) = noSpace s && noSpace t.
Proof.
  intros H. unfold noSpace. rewrite range_app by (by left).
  apply forallb_app.
Qed.

Lemma noSpace_colon t : noSpace (String ":" t) = noSpace t.
Proof. unfold noSpace. by rewrite range_ascii. Qed.

Lemma noSpace_Join paths :
  forallb isPath paths = true -> noSpace (strings.Join paths ":") = true.
Proof.
  induction paths as [|p ps IH]; [done|].
  cbn [forallb]. intros [Hp Hps]%andb_true_iff.
  apply andb_true_iff in Hp as [Hp _].
  destruct ps as [|q qs]; [done|].
  change (strings.Join (p :: q :: qs) ":")
    with (p +:+ String ":" (strings.Join (q :: qs) ":")).
  rewrite noSpace_app by done. rewrite noSpace_colon, Hp. by apply IH.
Qed.

Lemma Fields_spaced parts :
  wellFormed parts = true ->
  strings.fields_go unicode.IsSpace None (utf8.range (spaced parts)) =
  map (fun part => strings.Join part.1 ":") parts.
Proof.
  induction parts as [|[paths sep] ps IH]; [done|].
  cbn [wellFormed spaced map fst].
  intros ([[[Hne Hpaths]%andb_true_iff Hsep]%andb_true_iff
            Hlast]%andb_true_iff & Hps)%andb_true_iff.
  apply negb_true_iff, isEmpty_false in Hne.
  assert (cleanStart (sep +:+ spaced ps) = true) as Hclean.
  { destruct sep as [|d sep]; [|by apply allSpace_cleanStart in Hsep].
    cbn in Hlast. by destruct ps. }
  rewrite range_app by (by left).
  rewrite fields_go_chunk; [|done|by apply noSpace_Join].
  rewrite range_app by (by right).
  destruct (isEmpty sep) eqn:Hs.
  - apply isEmpty_true in Hs as ->. cbn in Hlast. by destruct ps.
  - apply isEmpty_false in Hs.
    rewrite fields_go_space_Some; [|by apply range_nonempty|done].
    by rewrite IH.
Qed.

Lemma Fields_value lead parts :
  allSpace lead = true -> wellFormed parts = true ->
  strings.Fields (lead +:+ spaced parts) =
  map (fun part => strings.Join part.1 ":") parts.
Proof.
  intros Hl Hp. unfold strings.Fields, strings.FieldsFunc.
  rewrite range_app by (by right).
  rewrite fields_go_space_None by done. by apply Fields_spaced.
Qed.

(** *** [strings.Split] on a chunk given by its paths *)

Lemma split_go_app sep cur p t :
  hasByte sep p = false ->
  strings.split_go sep cur (p +:+ t) = strings.split_go sep (cur +:+ p) t.
Proof.
  revert cur. induction p as [|c p IH]; intros cur H.
  - by rewrite str_app_nil_r.
  - cbn [hasByte] in H. apply orb_false_iff in H as [Hc H].
    rewrite str_app_cons. cbn [strings.split_go]. rewrite Hc.
    rewrite IH by done. by rewrite str_app_assoc.
Qed.

Lemma split_go_Join sep cur p ps :
  forallb (fun q => negb (hasByte sep q)) (p :: ps) = true ->
  strings.split_go sep cur (strings.Join (p :: ps) (String sep "")) =
  (cur +:+ p) :: ps.
Proof.
  revert cur p. induction ps as [|q qs IH]; intros cur p H;
    cbn [forallb] in H; apply andb_true_iff in H as [Hp H];
    apply negb_true_iff in Hp.
  - cbn [strings.Join]. rewrite <- (str_app_nil_r p) at 1.
    by rewrite split_go_app.
  - change (strings.Join (p :: q :: qs) (String sep ""))
      with (p +:+ String sep (strings.Join (q :: qs) (String sep ""))).
    rewrite split_go_app by done. cbn [strings.split_go].
    rewrite Ascii.eqb_refl. by rewrite IH.
Qed.

Lemma Split_Join paths :
  paths <> [] ->
  forallb isPath paths = true ->
  strings.Split (strings.Join paths ":") ":" = paths.
Proof.
  destruct paths as [|p ps]; [done|]. intros _ H.
  unfold strings.Split. rewrite split_go_Join; [done|].
  apply forallb_forall. intros q Hq.
  eapply forallb_forall in H; [|exact Hq].
  unfold isPath in H. by apply andb_true_iff in H as [_ H].
Qed.

(** *** The loops of [runDockerCompose] *)

Lemma fPairs_app ps qs : fPairs (ps ++ qs) = fPairs ps ++ fPairs qs.
Proof. unfold fPairs. apply flat_map_app. Qed.

Lemma foldl_files acc files :
  foldl (fun args file => args ++ ["-f"; file]) acc files =
  acc ++ fPairs files.
Proof.
  revert acc. induction files as [|f fs IH]; intros acc.
  - by rewrite app_nil_r.
  - cbn [foldl]. rewrite IH. by rewrite <- app_assoc.
Qed.

Lemma foldl_chunks acc chunks :
  foldl (fun args chunk =>
           foldl (fun args file => args ++ ["-f"; file]) args
                 (strings.Split chunk ":"))
        acc chunks =
  acc ++ fPairs (flat_map (fun chunk => strings.Split chunk ":") chunks).
Proof.
  revert acc. induction chunks as [|chunk chunks IH]; intros acc.
  - by rewrite app_nil_r.
  - cbn [foldl flat_map]. rewrite IH, foldl_files, fPairs_app.
    by rewrite <- app_assoc.
Qed.

Lemma composeFileArgs_spec composeFile :
  composeFileArgs composeFile =
  fPairs (flat_map (fun chunk => strings.Split chunk ":")
                   (strings.Fields composeFile)).
Proof. unfold composeFileArgs. by rewrite foldl_chunks. Qed.

Lemma composeFileArgs_value lead parts :
  allSpace lead = true -> wellFormed parts = true ->
  composeFileArgs (lead +:+ spaced parts) =
  fPairs (concat (map fst parts)).
Proof.
  intros Hl Hp. rewrite composeFileArgs_spec, Fields_value by done.
  f_equal. clear Hl lead.
  induction parts as [|[paths sep] ps IH]; [done|].
  cbn [wellFormed] in Hp.
  apply andb_true_iff in Hp as
    ([[[Hne Hpaths]%andb_true_iff _]%andb_true_iff _]%andb_true_iff & Hps).
  cbn [map flat_map concat fst]. rewrite IH by done.
  rewrite Split_Join; [done| |done].
  intros ->. by cbn in Hne.
Qed.

(** *** The shell *)

Ltac in_list :=
  repeat first [apply list_elem_of_here | apply list_elem_of_further].

Lemma logged_logged sh es es' :
  logged (logged sh es) es' = logged sh (es ++ es').
Proof. unfold logged; simpl. by rewrite <- app_assoc. Qed.

Lemma commands_logged sh es :
  commands (logged sh es) = commands sh ++ commands (mkShell ∅ "" es).
Proof. unfold commands, logged; simpl. apply omap_app. Qed.

Lemma runDockerCompose_spec projectName commandArgs sh :
  runDockerCompose projectName commandArgs sh =
  (exec sh "docker-compose" (composeArgv (Env sh) projectName commandArgs),
   logged sh
     [Ran "docker-compose" (composeArgv (Env sh) projectName commandArgs)]).
Proof.
  unfold runDockerCompose, composeArgv, Env_Get, Env_GetBool, Run, logged,
    mbind, M_bind.
  destruct (Env sh !! "BUILDKITE_DOCKER_COMPOSE_FILE") as [v|] eqn:Hf.
  - destruct v as [|c v]; simpl;
      destruct (GetBool (Env sh) "BUILDKITE_AGENT_DEBUG" false);
      by rewrite <- ?app_assoc.
  - simpl. destruct (GetBool (Env sh) "BUILDKITE_AGENT_DEBUG" false);
      by rewrite <- ?app_assoc.
Qed.

(** *** Teardown *)

(** C5: when [DOCKER_CONTAINER] holds a container name [c], teardown runs
    exactly one external command, [docker rm -f -v c], no
    [docker-compose] command, and returns what that command returned, so
    that its failure is the teardown's failure. *)
Theorem tearDown_docker_container sh c :
  Env sh !! "DOCKER_CONTAINER" = Some c ->
  let before := logged sh [Printed "~~~ Cleaning up Docker containers"] in
  tearDownDeprecatedDockerIntegration sh =
  (exec before "docker" ["rm"; "-f"; "-v"; c],
   logged before [Ran "docker" ["rm"; "-f"; "-v"; c]])
  /\ commands (snd (tearDownDeprecatedDockerIntegration sh)) =
     commands sh ++ [("docker", ["rm"; "-f"; "-v"; c])].
Proof.
  intros Hc before.
  assert (tearDownDeprecatedDockerIntegration sh =
          (exec before "docker" ["rm"; "-f"; "-v"; c],
           logged before [Ran "docker" ["rm"; "-f"; "-v"; c]])) as E.
  { unfold tearDownDeprecatedDockerIntegration, Env_Get, Printf, emit, Run,
      mbind, mret, M_bind, M_ret.
    rewrite Hc. subst before. unfold logged. cbn.
    by destruct (exec _ "docker" _). }
  split; [exact E|].
  rewrite E. cbn [snd]. subst before.
  by rewrite logged_logged, commands_logged.
Qed.

(** C4: when [COMPOSE_PROJ_NAME] is set and [DOCKER_CONTAINER] is not,
    teardown runs [kill], then [rm --force --all] with [-v] appended
    exactly when [BUILDKITE_DOCKER_COMPOSE_LEAVE_VOLUMES] reads false,
    then [down]; the results of [kill] and [rm] are dropped and the
    teardown returns the result of [down]. *)
Theorem tearDown_compose_project sh projectName :
  Env sh !! "DOCKER_CONTAINER" = None ->
  Env sh !! "COMPOSE_PROJ_NAME" = Some projectName ->
  let compose := composeArgv (Env sh) projectName in
  let rm :=
    ["rm"; "--force"; "--all"]
    ++ (if GetBool (Env sh) "BUILDKITE_DOCKER_COMPOSE_LEAVE_VOLUMES" false
        then [] else ["-v"]) in
  let before :=
    logged sh [ Printed "~~~ Cleaning up Docker containers";
                Ran "docker-compose" (compose ["kill"]);
                Ran "docker-compose" (compose rm) ] in
  tearDownDeprecatedDockerIntegration sh =
  (exec before "docker-compose" (compose ["down"]),
   logged before [Ran "docker-compose" (compose ["down"])])
  /\ commands (snd (tearDownDeprecatedDockerIntegration sh)) =
     commands sh ++ [ ("docker-compose", compose ["kill"]);
                      ("docker-compose", compose rm);
                      ("docker-compose", compose ["down"]) ].
Proof.
  intros Hc Hp compose rm before.
  assert (tearDownDeprecatedDockerIntegration sh =
          (exec before "docker-compose" (compose ["down"]),
           logged before [Ran "docker-compose" (compose ["down"])])) as E.
  { unfold tearDownDeprecatedDockerIntegration, Env_Get, Env_GetBool,
      Printf, emit, mbind, mret, M_bind, M_ret.
    rewrite Hc, Hp. cbv iota beta.
    rewrite !runDockerCompose_spec. cbn [Env logged].
    subst before rm compose.
    destruct (GetBool (Env sh) "BUILDKITE_DOCKER_COMPOSE_LEAVE_VOLUMES"
                      false);
      rewrite !runDockerCompose_spec; unfold logged; cbn [Env Wd Log];
      by rewrite <- !app_assoc. }
  split; [exact E|].
  rewrite E. cbn [snd]. subst before. rewrite logged_logged.
  rewrite commands_logged. done.
Qed.

(** *** The run phase *)

Lemma present_true sh k : present sh k = true <-> is_Some (Env sh !! k).
Proof. unfold present. apply bool_decide_eq_true. Qed.

Lemma present_false sh k : present sh k = false <-> Env sh !! k = None.
Proof.
  unfold present. rewrite bool_decide_eq_false, <- eq_None_not_Some. done.
Qed.

Lemma anyExists_none ks sh :
  (forall k, k ∈ ks -> Env sh !! k = None) -> anyExists ks sh = (false, sh).
Proof.
  induction ks as [|k ks IH]; intros Hks; [done|].
  cbn [anyExists]. unfold mbind, M_bind, Env_Exists.
  rewrite bool_decide_eq_false_2.
  - apply IH. intros k' Hk'. apply Hks. by apply list_elem_of_further.
  - rewrite Hks by apply list_elem_of_here. by intros [? ?].
Qed.

(** The [switch] of [runDeprecatedDockerIntegration], case by case. *)
Lemma runDeprecatedDockerIntegration_cases scriptPath sh :
  runDeprecatedDockerIntegration scriptPath sh =
  match filepath_Rel (Wd sh) scriptPath with
  | inr err => (Some err, sh)
  | inl relativePath =>
    let p := "." +:+ String PathSeparator "" +:+ relativePath in
    if present sh "BUILDKITE_DOCKER_COMPOSE_CONTAINER"
    then runDockerComposeCommand p (logged sh [Warned composeDeprecation])
    else if present sh "BUILDKITE_DOCKER"
    then runDockerCommand p (logged sh [Warned dockerDeprecation])
    else if present sh "BUILDKITE_DOCKER_COMPOSE_FILE"
    then (genericFailure, warnedNotSet sh "BUILDKITE_DOCKER_COMPOSE_FILE")
    else if present sh "BUILDKITE_DOCKER_COMPOSE_BUILD_ALL"
    then (genericFailure,
          warnedNotSet sh "BUILDKITE_DOCKER_COMPOSE_BUILD_ALL")
    else if present sh "BUILDKITE_DOCKER_COMPOSE_LEAVE_VOLUMES"
    then (genericFailure,
          warnedNotSet sh "BUILDKITE_DOCKER_COMPOSE_LEAVE_VOLUMES")
    else (genericFailure, sh)
  end.
Proof.
  unfold runDeprecatedDockerIntegration, runDeprecatedDockerIntegrationWith,
    Getwd, mbind, mret, M_bind, M_ret.
  destruct (filepath_Rel (Wd sh) scriptPath) as [relativePath|err];
    [|done].
  cbv zeta.
  unfold dockerSwitch, switch, cond, body, Env_Exists, warnNotSet,
    Warningf, emit, present, mbind, mret, M_bind, M_ret.
  repeat case_bool_decide; try done.
  - unfold logged. by destruct (runDockerComposeCommand _ _).
  - unfold logged. by destruct (runDockerCommand _ _).
Qed.

Lemma runDockerComposeCommand_spec scriptPath sh :
  let composeContainer :=
    default "" (Env sh !! "BUILDKITE_DOCKER_COMPOSE_CONTAINER") in
  let jobId := default "" (Env sh !! "BUILDKITE_JOB_ID") in
  let projectName := strings.Replace ("buildkite" +:+ jobId) "-" "" (-1) in
  let sh1 :=
    mkShell (<["COMPOSE_PROJ_NAME" := projectName]> (Env sh)) (Wd sh)
            (Log sh ++ [Headed ":docker: Building Docker images"]) in
  let compose := composeArgv (Env sh1) projectName in
  let build :=
    compose (if GetBool (Env sh1) "BUILDKITE_DOCKER_COMPOSE_BUILD_ALL" false
             then ["build"; "--pull"]
             else ["build"; "--pull"; composeContainer]) in
  let sh2 :=
    logged sh1
      [ Ran "docker-compose" build;
        Headed ":docker: Running command (in Docker Compose container)" ] in
  let run := compose ["run"; composeContainer; scriptPath] in
  runDockerComposeCommand scriptPath sh =
  match exec sh1 "docker-compose" build with
  | Some e => (Some e, logged sh1 [Ran "docker-compose" build])
  | None =>
    (exec sh2 "docker-compose" run, logged sh2 [Ran "docker-compose" run])
  end.
Proof.
  intros composeContainer jobId projectName sh1 compose build sh2 run.
  unfold runDockerComposeCommand, Env_Get, Env_Set, Env_GetBool, Headerf,
    emit, mbind, mret, M_bind, M_ret.
  assert ((match Env sh !! "BUILDKITE_DOCKER_COMPOSE_CONTAINER" with
           | Some v => (v, true) | None => ("", false) end).1
          = composeContainer) as Ec
    by (subst composeContainer;
        by destruct (Env sh !! "BUILDKITE_DOCKER_COMPOSE_CONTAINER")).
  assert ((match Env sh !! "BUILDKITE_JOB_ID" with
           | Some v => (v, true) | None => ("", false) end).1
          = jobId) as Ej
    by (subst jobId; by destruct (Env sh !! "BUILDKITE_JOB_ID")).
  destruct (match Env sh !! "BUILDKITE_DOCKER_COMPOSE_CONTAINER" with
            | Some v => (v, true) | None => ("", false) end) as [cc okc].
  destruct (match Env sh !! "BUILDKITE_JOB_ID" with
            | Some v => (v, true) | None => ("", false) end) as [j okj].
  cbn [fst] in Ec, Ej. subst cc j.
  subst run build sh2 compose sh1. cbn [Env Wd Log]. fold projectName.
  destruct (GetBool _ "BUILDKITE_DOCKER_COMPOSE_BUILD_ALL" false);
    rewrite runDockerCompose_spec; cbn [Env Wd Log logged];
    (destruct (exec _ "docker-compose" _); [done|]);
    rewrite runDockerCompose_spec; cbn [Env Wd Log logged].
    all: unfold logged; cbn [Env Wd Log]; by rewrite <- !app_assoc.
Qed.

Lemma runDockerCommand_spec scriptPath sh :
  let jobId := default "" (Env sh !! "BUILDKITE_JOB_ID") in
  let dockerContainer := "buildkite_" +:+ jobId +:+ "_container" in
  let dockerImage := "buildkite_" +:+ jobId +:+ "_image" in
  let dockerFile :=
    match Env sh !! "BUILDKITE_DOCKER_FILE" with
    | Some "" | None => "Dockerfile"
    | Some v => v
    end in
  let sh1 :=
    mkShell (<["DOCKER_IMAGE" := dockerImage]>
               (<["DOCKER_CONTAINER" := dockerContainer]> (Env sh)))
            (Wd sh)
            (Log sh ++ [Printed ("~~~ :docker: Building Docker image "
                                 +:+ dockerImage)]) in
  let build := ["build"; "-f"; dockerFile; "-t"; dockerImage; "."] in
  let sh2 :=
    logged sh1 [ Ran "docker" build;
                 Headed ":docker: Running command (in Docker container)" ] in
  let run := ["run"; "--name"; dockerContainer; dockerImage; scriptPath] in
  runDockerCommand scriptPath sh =
  match exec sh1 "docker" build with
  | Some e => (Some e, logged sh1 [Ran "docker" build])
  | None => (exec sh2 "docker" run, logged sh2 [Ran "docker" run])
  end.
Proof.
  intros jobId dockerContainer dockerImage dockerFile sh1 build sh2 run.
  unfold runDockerCommand, Env_Get, Env_Set, Printf, Headerf, Run, emit,
    mbind, mret, M_bind, M_ret.
  subst run sh2 build sh1 dockerFile dockerImage dockerContainer jobId.
  unfold logged.
  destruct (Env sh !! "BUILDKITE_JOB_ID") as [j|];
    destruct (Env sh !! "BUILDKITE_DOCKER_FILE") as [[|c f]|];
    cbn [default String.eqb Env Wd Log fst];
    rewrite ?Ascii.eqb_refl, ?String.eqb_refl;
    (destruct (exec _ "docker" _); [done|]);
    cbn [Env Wd Log]; rewrite <- !app_assoc;
    by destruct (exec _ "docker" _).
Qed.

Lemma Env_logged sh es : Env (logged sh es) = Env sh.
Proof. done. Qed.

Lemma Env_runDockerComposeCommand scriptPath sh :
  Env (runDockerComposeCommand scriptPath sh).2 =
  <["COMPOSE_PROJ_NAME" :=
      strings.Replace
        ("buildkite" +:+ default "" (Env sh !! "BUILDKITE_JOB_ID"))
        "-" "" (-1)]> (Env sh).
Proof.
  rewrite runDockerComposeCommand_spec.
  by destruct (exec _ "docker-compose" _).
Qed.

Lemma Env_runDockerCommand scriptPath sh :
  let jobId := default "" (Env sh !! "BUILDKITE_JOB_ID") in
  Env (runDockerCommand scriptPath sh).2 =
  <["DOCKER_IMAGE" := "buildkite_" +:+ jobId +:+ "_image"]>
    (<["DOCKER_CONTAINER" := "buildkite_" +:+ jobId +:+ "_container"]>
       (Env sh)).
Proof.
  intros jobId. rewrite runDockerCommand_spec.
  by destruct (exec _ "docker" _).
Qed.

(** The commands of the compose path are all [docker-compose]. *)
Lemma commands_runDockerComposeCommand scriptPath sh :
  exists new,
    commands (runDockerComposeCommand scriptPath sh).2 = commands sh ++ new
    /\ new <> []
    /\ Forall (fun ca => ca.1 = "docker-compose") new.
Proof.
  rewrite runDockerComposeCommand_spec. cbv zeta.
  destruct (exec _ "docker-compose" _); cbn [snd];
    rewrite ?logged_logged, commands_logged;
    unfold commands at 1; cbn [Log]; rewrite omap_app; cbn [omap app];
    rewrite app_nil_r; fold (commands sh);
    (eexists; split; [reflexivity|]); split; try done;
    by repeat constructor.
Qed.

(** C1: when both [BUILDKITE_DOCKER_COMPOSE_CONTAINER] and
    [BUILDKITE_DOCKER] are present, the [switch] runs its first case: the
    call is [runDockerComposeCommand] after the deprecation warning; the
    commands it adds are all [docker-compose], and of the variables only
    [COMPOSE_PROJ_NAME] is written, so [runDockerCommand] is not run. *)
Theorem compose_container_takes_precedence sh scriptPath relativePath :
  is_Some (Env sh !! "BUILDKITE_DOCKER_COMPOSE_CONTAINER") ->
  is_Some (Env sh !! "BUILDKITE_DOCKER") ->
  filepath_Rel (Wd sh) scriptPath = inl relativePath ->
  let p := "." +:+ String PathSeparator "" +:+ relativePath in
  let result := runDeprecatedDockerIntegration scriptPath sh in
  selected (dockerSwitch p) sh = Some 0%nat
  /\ result = runDockerComposeCommand p (logged sh [Warned composeDeprecation])
  /\ (exists new,
        commands result.2 = commands sh ++ new
        /\ new <> []
        /\ Forall (fun ca => ca.1 = "docker-compose") new)
  /\ (forall k, k <> "COMPOSE_PROJ_NAME" ->
        Env result.2 !! k = Env sh !! k).
Proof.
  intros Hc _ Hrel p result.
  assert (result =
          runDockerComposeCommand p (logged sh [Warned composeDeprecation]))
    as E.
  { subst result. rewrite runDeprecatedDockerIntegration_cases, Hrel.
    cbv zeta. fold p. apply present_true in Hc. by rewrite Hc. }
  split; [|split; [exact E|split]].
  - cbn. by rewrite bool_decide_eq_true_2.
  - rewrite E.
    destruct (commands_runDockerComposeCommand p
                (logged sh [Warned composeDeprecation]))
      as (new & Hn & Hne & Hall).
    exists new. rewrite Hn, commands_logged. cbn.
    by rewrite app_nil_r.
  - intros k Hk. rewrite E, Env_runDockerComposeCommand, Env_logged.
    by rewrite lookup_insert_ne.
Qed.

(** C3: with [BUILDKITE_DOCKER=1] and [BUILDKITE_JOB_ID=42], no
    compose-container variable and no Dockerfile variable, a script that
    is [script.sh] relative to the working directory and a [docker build]
    that succeeds, the run phase runs exactly
    [docker build -f Dockerfile -t buildkite_42_image .] and then
    [docker run --name buildkite_42_container buildkite_42_image
    ./script.sh], and leaves [DOCKER_CONTAINER=buildkite_42_container] in
    the environment. *)
Theorem docker_scenario sh scriptPath :
  Env sh !! "BUILDKITE_DOCKER" = Some "1" ->
  Env sh !! "BUILDKITE_JOB_ID" = Some "42" ->
  Env sh !! "BUILDKITE_DOCKER_COMPOSE_CONTAINER" = None ->
  Env sh !! "BUILDKITE_DOCKER_FILE" = None ->
  PathSeparator = "/"%char ->
  filepath_Rel (Wd sh) scriptPath = inl "script.sh" ->
  (forall s, exec s "docker"
               ["build"; "-f"; "Dockerfile"; "-t"; "buildkite_42_image"; "."]
             = None) ->
  let result := runDeprecatedDockerIntegration scriptPath sh in
  commands result.2 =
    commands sh ++
    [ ("docker",
       ["build"; "-f"; "Dockerfile"; "-t"; "buildkite_42_image"; "."]);
      ("docker",
       ["run"; "--name"; "buildkite_42_container"; "buildkite_42_image";
        "./script.sh"]) ]
  /\ Env result.2 !! "DOCKER_CONTAINER" = Some "buildkite_42_container".
Proof.
  intros Hd Hj Hc Hf Hsep Hrel Hbuild result. subst result.
  rewrite runDeprecatedDockerIntegration_cases, Hrel. cbv zeta.
  apply present_false in Hc. rewrite Hc.
  assert (present sh "BUILDKITE_DOCKER" = true) as ->
    by (apply present_true; by rewrite Hd).
  rewrite runDockerCommand_spec. cbv zeta. rewrite !Env_logged, Hj, Hf.
  cbn [default]. subst PathSeparator.
  change ("buildkite_" +:+ "42" +:+ "_image") with "buildkite_42_image".
  change ("buildkite_" +:+ "42" +:+ "_container")
    with "buildkite_42_container".
  change ("." +:+ "/" +:+ "script.sh") with "./script.sh".
  rewrite Hbuild. cbn [snd]. split.
  - rewrite logged_logged. unfold commands, logged. cbn [Log].
    rewrite <- !app_assoc, !omap_app. cbn. done.
  - cbn [Env logged]. rewrite lookup_insert_ne by done.
    by rewrite lookup_insert_eq.
Qed.

(** C6, amended: when one of [BUILDKITE_DOCKER_COMPOSE_FILE],
    [BUILDKITE_DOCKER_COMPOSE_BUILD_ALL] and
    [BUILDKITE_DOCKER_COMPOSE_LEAVE_VOLUMES] is set, and neither
    [BUILDKITE_DOCKER_COMPOSE_CONTAINER] nor [BUILDKITE_DOCKER] is, the
    call (with a script path that can be made relative) only emits one
    warning, which names a flag that is set and
    [BUILDKITE_DOCKER_COMPOSE_CONTAINER] as what it misses; it runs no
    command and returns the generic error of the function, whose message
    is "Failed to find any docker env". *)
Theorem dependent_flag_alone_warns_and_fails sh scriptPath relativePath :
  Env sh !! "BUILDKITE_DOCKER_COMPOSE_CONTAINER" = None ->
  Env sh !! "BUILDKITE_DOCKER" = None ->
  is_Some (Env sh !! "BUILDKITE_DOCKER_COMPOSE_FILE")
  \/ is_Some (Env sh !! "BUILDKITE_DOCKER_COMPOSE_BUILD_ALL")
  \/ is_Some (Env sh !! "BUILDKITE_DOCKER_COMPOSE_LEAVE_VOLUMES") ->
  filepath_Rel (Wd sh) scriptPath = inl relativePath ->
  exists k,
    k ∈ [ "BUILDKITE_DOCKER_COMPOSE_FILE";
          "BUILDKITE_DOCKER_COMPOSE_BUILD_ALL";
          "BUILDKITE_DOCKER_COMPOSE_LEAVE_VOLUMES" ]
    /\ is_Some (Env sh !! k)
    /\ runDeprecatedDockerIntegration scriptPath sh =
       (Some (errors_New "Failed to find any docker env"),
        logged sh
          [Warned (k +:+ " is set, but without "
                     +:+ "BUILDKITE_DOCKER_COMPOSE_CONTAINER"
                     +:+ notSetAdvice)])
    /\ commands (runDeprecatedDockerIntegration scriptPath sh).2
       = commands sh.
Proof.
  intros Hc Hd Hflag Hrel.
  rewrite runDeprecatedDockerIntegration_cases, Hrel. cbv zeta.
  apply present_false in Hc, Hd. rewrite Hc, Hd.
  assert (forall k, is_Some (Env sh !! k) ->
            (genericFailure, warnedNotSet sh k) =
            (Some (errors_New "Failed to find any docker env"),
             logged sh
               [Warned (k +:+ " is set, but without "
                          +:+ "BUILDKITE_DOCKER_COMPOSE_CONTAINER"
                          +:+ notSetAdvice)])
            /\ commands (genericFailure, warnedNotSet sh k).2 = commands sh)
    as K.
  { intros k _. split; [done|]. unfold warnedNotSet. cbn [snd].
    rewrite commands_logged. cbn. by rewrite app_nil_r. }
  destruct (present sh "BUILDKITE_DOCKER_COMPOSE_FILE") eqn:Hf;
    [|destruct (present sh "BUILDKITE_DOCKER_COMPOSE_BUILD_ALL") eqn:Hb;
      [|destruct (present sh "BUILDKITE_DOCKER_COMPOSE_LEAVE_VOLUMES")
          eqn:Hl]].
  - apply present_true in Hf.
    exists "BUILDKITE_DOCKER_COMPOSE_FILE".
    split; [in_list|]. split; [done|]. by apply K.
  - apply present_true in Hb.
    exists "BUILDKITE_DOCKER_COMPOSE_BUILD_ALL".
    split; [in_list|]. split; [done|]. by apply K.
  - apply present_true in Hl.
    exists "BUILDKITE_DOCKER_COMPOSE_LEAVE_VOLUMES".
    split; [in_list|]. split; [done|]. by apply K.
  - apply present_false in Hf, Hb, Hl. rewrite Hf, Hb, Hl in Hflag.
    destruct Hflag as [[? ?]|[[? ?]|[? ?]]]; discriminate.
Qed.

(** C7, amended: when none of the six variables of [dockerEnv] is set,
    [hasDeprecatedDockerIntegration] answers false, and
    [runDeprecatedDockerIntegration] runs no command and leaves the shell
    as it was, but returns an error: the one of [filepath.Rel] when the
    script path cannot be made relative, and otherwise
    "Failed to find any docker env". *)
Theorem nothing_set_nothing_run sh scriptPath :
  (forall k, k ∈ dockerEnv -> Env sh !! k = None) ->
  hasDeprecatedDockerIntegration sh = (false, sh)
  /\ runDeprecatedDockerIntegration scriptPath sh =
     (Some (match filepath_Rel (Wd sh) scriptPath with
            | inr err => err
            | inl _ => errors_New "Failed to find any docker env"
            end), sh)
  /\ commands (runDeprecatedDockerIntegration scriptPath sh).2
     = commands sh.
Proof.
  intros Hnone.
  assert (forall k, k ∈ dockerEnv -> present sh k = false) as Hp
    by (intros k Hk; apply present_false; auto).
  assert (runDeprecatedDockerIntegration scriptPath sh =
          (Some (match filepath_Rel (Wd sh) scriptPath with
                 | inr err => err
                 | inl _ => errors_New "Failed to find any docker env"
                 end), sh)) as E.
  { rewrite runDeprecatedDockerIntegration_cases.
    destruct (filepath_Rel (Wd sh) scriptPath); [|done]. cbv zeta.
    rewrite !Hp by (unfold dockerEnv; in_list). done. }
  split; [|split; [exact E | by rewrite E]].
  apply anyExists_none, Hnone.
Qed.

(** C8: from an environment with neither [DOCKER_CONTAINER] nor
    [COMPOSE_PROJ_NAME], one call of [runDeprecatedDockerIntegration]
    leaves at most one of the two set: [COMPOSE_PROJ_NAME] only when the
    first case of the [switch] ran, [DOCKER_CONTAINER] only when the
    second did. *)
Theorem at_most_one_marker sh scriptPath :
  Env sh !! "DOCKER_CONTAINER" = None ->
  Env sh !! "COMPOSE_PROJ_NAME" = None ->
  let sh' := (runDeprecatedDockerIntegration scriptPath sh).2 in
  ~ (is_Some (Env sh' !! "DOCKER_CONTAINER")
     /\ is_Some (Env sh' !! "COMPOSE_PROJ_NAME"))
  /\ (is_Some (Env sh' !! "COMPOSE_PROJ_NAME") ->
      present sh "BUILDKITE_DOCKER_COMPOSE_CONTAINER" = true)
  /\ (is_Some (Env sh' !! "DOCKER_CONTAINER") ->
      present sh "BUILDKITE_DOCKER_COMPOSE_CONTAINER" = false
      /\ present sh "BUILDKITE_DOCKER" = true).
Proof.
  intros Hd Hc sh'. subst sh'.
  assert (forall (e : gmap string string) (P Q : Prop),
            e !! "DOCKER_CONTAINER" = None -> P ->
            ~ (is_Some (e !! "DOCKER_CONTAINER")
               /\ is_Some (e !! "COMPOSE_PROJ_NAME"))
            /\ (is_Some (e !! "COMPOSE_PROJ_NAME") -> P)
            /\ (is_Some (e !! "DOCKER_CONTAINER") -> Q)) as noContainer.
  { intros e P Q -> HP.
    split; [intros [[? ?] _]; done|].
    split; [done | intros [? ?]; done]. }
  assert (forall (e : gmap string string) (P Q : Prop),
            e !! "COMPOSE_PROJ_NAME" = None -> Q ->
            ~ (is_Some (e !! "DOCKER_CONTAINER")
               /\ is_Some (e !! "COMPOSE_PROJ_NAME"))
            /\ (is_Some (e !! "COMPOSE_PROJ_NAME") -> P)
            /\ (is_Some (e !! "DOCKER_CONTAINER") -> Q)) as noProject.
  { intros e P Q -> HQ.
    split; [intros [_ [? ?]]; done|].
    split; [intros [? ?]; done | done]. }
  assert (forall (e : gmap string string) (P Q : Prop),
            e !! "DOCKER_CONTAINER" = None ->
            e !! "COMPOSE_PROJ_NAME" = None ->
            ~ (is_Some (e !! "DOCKER_CONTAINER")
               /\ is_Some (e !! "COMPOSE_PROJ_NAME"))
            /\ (is_Some (e !! "COMPOSE_PROJ_NAME") -> P)
            /\ (is_Some (e !! "DOCKER_CONTAINER") -> Q)) as unchanged.
  { intros e P Q -> ->.
    split; [intros [[? ?] _]; done|].
    split; intros [? ?]; done. }
  rewrite runDeprecatedDockerIntegration_cases.
  destruct (filepath_Rel (Wd sh) scriptPath) as [relativePath|err];
    [|by apply unchanged].
  cbv zeta.
  destruct (present sh "BUILDKITE_DOCKER_COMPOSE_CONTAINER") eqn:Hcc.
  { apply noContainer; [|done].
    rewrite Env_runDockerComposeCommand, Env_logged.
    by rewrite lookup_insert_ne. }
  destruct (present sh "BUILDKITE_DOCKER") eqn:Hdd.
  { apply noProject; [|done].
    rewrite Env_runDockerCommand, Env_logged. cbv zeta.
    by rewrite !lookup_insert_ne. }
  repeat case_match; by apply unchanged.
Qed.

Lemma Replace_hyphens s : strings.Replace s "-" "" (-1) = removeHyphens s.
Proof.
  unfold strings.Replace. cbn [String.eqb Z.ltb Z.compare].
  induction s as [|c s IH]; [done|].
  cbn [strings.replace_go removeHyphens].
  destruct (Ascii.eqb c "-"); by rewrite IH.
Qed.

Lemma removeHyphens_app s t :
  removeHyphens (s +:+ t) = removeHyphens s +:+ removeHyphens t.
Proof.
  induction s as [|c s IH]; [done|].
  change (String c s +:+ t) with (String c (s +:+ t)).
  cbn [removeHyphens]. destruct (Ascii.eqb c "-"); [done|].
  by rewrite IH.
Qed.

(** C9: the project name written to [COMPOSE_PROJ_NAME] is [buildkite]
    followed by the job id without its hyphens; for the job id
    [abc-123-def] it is [buildkiteabc123def]. *)
Theorem project_name_strips_hyphens sh scriptPath jobId :
  Env sh !! "BUILDKITE_JOB_ID" = Some jobId ->
  let written :=
    Env (runDockerComposeCommand scriptPath sh).2 !! "COMPOSE_PROJ_NAME" in
  written = Some ("buildkite" +:+ removeHyphens jobId)
  /\ (jobId = "abc-123-def" -> written = Some "buildkiteabc123def").
Proof.
  intros Hj written.
  assert (written = Some ("buildkite" +:+ removeHyphens jobId)) as E.
  { subst written. rewrite Env_runDockerComposeCommand, lookup_insert_eq.
    rewrite Hj. cbn [default].
    by rewrite Replace_hyphens, removeHyphens_app. }
  split; [exact E|]. intros ->. by rewrite E.
Qed.

(** A [switch] whose conditions leave the shell alone runs the body of
    the selected case, or the default when none is selected. *)
Lemma switch_selected {A : Type} (cases : list (Case A)) (otherwise : M A)
    sh :
  Forall (fun c => (cond c sh).2 = sh) cases ->
  switch cases otherwise sh =
  match selected cases sh with
  | Some i => from_option (fun c => body c sh) (otherwise sh) (cases !! i)
  | None => otherwise sh
  end.
Proof.
  induction 1 as [|c cs Hc _ IH]; [done|].
  cbn [switch selected]. unfold mbind, M_bind.
  destruct (cond c sh) as [b sh'] eqn:E. cbn [fst snd] in *. subst sh'.
  destruct b; [done|]. rewrite IH.
  by destruct (selected cs sh).
Qed.

Lemma dockerSwitch_pure p sh :
  Forall (fun c => (cond c sh).2 = sh) (dockerSwitch p).
Proof. unfold dockerSwitch. by repeat constructor. Qed.

(** C10: the sixth case of the [switch], the second one on
    [BUILDKITE_DOCKER_COMPOSE_LEAVE_VOLUMES], is the same as the fifth;
    whenever its condition holds an earlier case is the one selected, so
    it is never selected, and the function without it returns the same
    result and the same shell on every input. *)
Theorem duplicated_case_is_dead sh scriptPath :
  (forall p, dockerSwitch p !! 5%nat = dockerSwitch p !! 4%nat)
  /\ (forall p c,
        dockerSwitch p !! 5%nat = Some c -> (cond c sh).1 = true ->
        exists i, (i < 5)%nat /\ selected (dockerSwitch p) sh = Some i)
  /\ (forall p, selected (dockerSwitch p) sh <> Some 5%nat)
  /\ runDeprecatedDockerIntegrationWith dockerSwitchDeduplicated
       scriptPath sh
     = runDeprecatedDockerIntegration scriptPath sh.
Proof.
  split; [done|]. split; [|split].
  - intros p c [= <-]. cbn [cond]. unfold Env_Exists. cbn [fst].
    intros H. unfold dockerSwitch, selected, cond, Env_Exists. cbn [fst].
    repeat case_bool_decide; cbn; try (eexists; split; [|reflexivity]; lia).
    congruence.
  - intros p. unfold dockerSwitch, selected, cond, Env_Exists. cbn [fst].
    repeat case_bool_decide; by cbn.
  - unfold runDeprecatedDockerIntegration,
      runDeprecatedDockerIntegrationWith, Getwd, mbind, mret, M_bind, M_ret.
    destruct (filepath_Rel (Wd sh) scriptPath) as [relativePath|err];
      [|done].
    cbv zeta.
    unfold dockerSwitchDeduplicated, dockerSwitch, removelast, switch,
      cond, body, Env_Exists, mbind, mret, M_bind, M_ret.
    by repeat case_bool_decide.
Qed.

(** C2: for a value of [BUILDKITE_DOCKER_COMPOSE_FILE] made of chunks
    separated by white space, each chunk made of paths separated by
    colons, [runDockerCompose] runs [docker-compose] with exactly one
    [-f <path>] pair per path, chunk after chunk and path after path, and
    without [docker-compose.yml]; these come first, before [-p]. With N
    chunks of M paths each there are N times M paths. When the variable is
    unset or empty the only pair is [-f docker-compose.yml]. *)
Theorem compose_files_flattened sh projectName commandArgs lead parts :
  allSpace lead = true ->
  wellFormed parts = true ->
  let value := lead +:+ spaced parts in
  let paths := concat (map fst parts) in
  let rest :=
    ["-p"; projectName]
    ++ (if GetBool (Env sh) "BUILDKITE_AGENT_DEBUG" false
        then ["--verbose"] else [])
    ++ commandArgs in
  let ran args :=
    (exec sh "docker-compose" args,
     logged sh [Ran "docker-compose" args]) in
  (Env sh !! "BUILDKITE_DOCKER_COMPOSE_FILE" = Some value -> value <> "" ->
   runDockerCompose projectName commandArgs sh = ran (fPairs paths ++ rest))
  /\ (forall M, Forall (fun part => length part.1 = M) parts ->
      length paths = (length parts * M)%nat)
  /\ (Env sh !! "BUILDKITE_DOCKER_COMPOSE_FILE" = None
      \/ Env sh !! "BUILDKITE_DOCKER_COMPOSE_FILE" = Some "" ->
      runDockerCompose projectName commandArgs sh =
      ran (["-f"; "docker-compose.yml"] ++ rest)).
Proof.
  intros Hlead Hparts value paths rest ran.
  split; [|split].
  - intros Hv Hne. rewrite runDockerCompose_spec. unfold composeArgv.
    rewrite Hv. subst ran rest value. cbv beta.
    destruct (lead +:+ spaced parts) as [|c v] eqn:E; [done|].
    cbv beta iota. rewrite <- E, composeFileArgs_value by done.
    done.
  - intros M HM. subst paths. clear Hparts.
    induction HM as [|part ps Hpart _ IH]; [done|].
    cbn [map concat length]. rewrite length_app, IH, Hpart. lia.
  - intros Hv. rewrite runDockerCompose_spec. unfold composeArgv.
    subst ran rest. cbv beta.
    by destruct Hv as [-> | ->].
Qed.

(** *** More on detection, the run phase and teardown *)

Lemma anyExists_iff ks sh :
  (anyExists ks sh).2 = sh
  /\ ((anyExists ks sh).1 = true <->
      exists k, k ∈ ks /\ is_Some (Env sh !! k)).
Proof.
  induction ks as [|k ks [IH1 IH2]].
  - split; [done|]. split; [done|]. intros (k & Hk & _).
    by apply not_elem_of_nil in Hk.
  - cbn [anyExists]. unfold mbind, M_bind, Env_Exists.
    case_bool_decide as Hk.
    + split; [done|]. split; [|done]. intros _. exists k.
      split; [apply list_elem_of_here | done].
    + split; [done|]. rewrite IH2. split.
      * intros (k' & Hk' & Hs). exists k'.
        split; [by apply list_elem_of_further | done].
      * intros (k' & Hk' & Hs). apply elem_of_cons in Hk' as [-> | Hk'];
          [done|by exists k'].
Qed.

Lemma detection_present sh :
  (exists k, k ∈ dockerEnv /\ is_Some (Env sh !! k)) ->
  (hasDeprecatedDockerIntegration sh).1 = true.
Proof. apply anyExists_iff. Qed.

(** X1: [hasDeprecatedDockerIntegration] leaves the shell as it is and
    answers true exactly when one of the six variables of [dockerEnv] is
    in the environment, whatever its value. *)
Theorem detection_iff sh :
  (hasDeprecatedDockerIntegration sh).2 = sh
  /\ ((hasDeprecatedDockerIntegration sh).1 = true <->
      exists k, k ∈ dockerEnv /\ is_Some (Env sh !! k)).
Proof. apply anyExists_iff. Qed.

(** X2: when [filepath.Rel] refuses the script path, the run phase returns
    that error and does nothing else: no warning, no command, no variable
    written, whatever the environment holds. *)
Theorem path_failure_stops_everything sh scriptPath err :
  filepath_Rel (Wd sh) scriptPath = inr err ->
  runDeprecatedDockerIntegration scriptPath sh = (Some err, sh).
Proof.
  intros H. by rewrite runDeprecatedDockerIntegration_cases, H.
Qed.

Lemma tearDown_cases sh :
  tearDownDeprecatedDockerIntegration sh =
  match Env sh !! "DOCKER_CONTAINER" with
  | Some container =>
    let before := logged sh [Printed "~~~ Cleaning up Docker containers"] in
    (exec before "docker" ["rm"; "-f"; "-v"; container],
     logged before [Ran "docker" ["rm"; "-f"; "-v"; container]])
  | None =>
    match Env sh !! "COMPOSE_PROJ_NAME" with
    | Some projectName =>
      let compose := composeArgv (Env sh) projectName in
      let rm :=
        ["rm"; "--force"; "--all"]
        ++ (if GetBool (Env sh) "BUILDKITE_DOCKER_COMPOSE_LEAVE_VOLUMES"
                       false
            then [] else ["-v"]) in
      let before :=
        logged sh [ Printed "~~~ Cleaning up Docker containers";
                    Ran "docker-compose" (compose ["kill"]);
                    Ran "docker-compose" (compose rm) ] in
      (exec before "docker-compose" (compose ["down"]),
       logged before [Ran "docker-compose" (compose ["down"])])
    | None => (None, sh)
    end
  end.
Proof.
  unfold tearDownDeprecatedDockerIntegration, Env_Get, Env_GetBool, Printf,
    emit, Run, mbind, mret, M_bind, M_ret.
  destruct (Env sh !! "DOCKER_CONTAINER") as [c|].
  { unfold logged. cbn. by destruct (exec _ "docker" _). }
  destruct (Env sh !! "COMPOSE_PROJ_NAME") as [pn|]; [|done].
  cbv iota beta. rewrite !runDockerCompose_spec. cbn [Env logged].
  destruct (GetBool (Env sh) "BUILDKITE_DOCKER_COMPOSE_LEAVE_VOLUMES" false);
    rewrite !runDockerCompose_spec; unfold logged; cbn [Env Wd Log];
    by rewrite <- !app_assoc.
Qed.

(** X3: with neither [DOCKER_CONTAINER] nor [COMPOSE_PROJ_NAME] in the
    environment, teardown succeeds and does nothing at all. *)
Theorem tearDown_without_markers sh :
  Env sh !! "DOCKER_CONTAINER" = None ->
  Env sh !! "COMPOSE_PROJ_NAME" = None ->
  tearDownDeprecatedDockerIntegration sh = (None, sh).
Proof. intros Hd Hc. by rewrite tearDown_cases, Hd, Hc. Qed.

Lemma tearDown_effect sh :
  Env (tearDownDeprecatedDockerIntegration sh).2 = Env sh
  /\ commands (tearDownDeprecatedDockerIntegration sh).2 =
     commands sh ++ tearDownCommands (Env sh).
Proof.
  rewrite tearDown_cases. unfold tearDownCommands.
  destruct (Env sh !! "DOCKER_CONTAINER") as [c|].
  { cbv zeta. cbn [snd]. rewrite logged_logged, commands_logged. done. }
  destruct (Env sh !! "COMPOSE_PROJ_NAME") as [pn|].
  { cbv zeta. cbn [snd]. rewrite logged_logged, commands_logged. done. }
  cbn [snd]. by rewrite app_nil_r.
Qed.

(** X4: teardown never writes the environment, and the commands it runs
    are decided by the environment alone, not by how earlier commands
    ended; so a second teardown runs the same commands again. *)
Theorem tearDown_repeats sh :
  let sh1 := (tearDownDeprecatedDockerIntegration sh).2 in
  let sh2 := (tearDownDeprecatedDockerIntegration sh1).2 in
  Env sh1 = Env sh
  /\ commands sh1 = commands sh ++ tearDownCommands (Env sh)
  /\ commands sh2 = commands sh1 ++ tearDownCommands (Env sh).
Proof.
  cbv zeta. destruct (tearDown_effect sh) as [E C].
  destruct (tearDown_effect (tearDownDeprecatedDockerIntegration sh).2)
    as [_ C'].
  split; [done|]. split; [done|]. by rewrite C', E.
Qed.

(** X5: in Docker mode a failing [docker build] ends the run phase: its
    error is returned, [docker run] is not started, and [DOCKER_CONTAINER]
    and [DOCKER_IMAGE] are in the environment already. The Dockerfile is
    the value of [BUILDKITE_DOCKER_FILE], or [Dockerfile] when that is
    unset or empty; the job id goes into the names as it is. *)
Theorem docker_build_failure_aborts sh scriptPath relativePath e :
  Env sh !! "BUILDKITE_DOCKER_COMPOSE_CONTAINER" = None ->
  is_Some (Env sh !! "BUILDKITE_DOCKER") ->
  filepath_Rel (Wd sh) scriptPath = inl relativePath ->
  let jobId := default "" (Env sh !! "BUILDKITE_JOB_ID") in
  let container := "buildkite_" +:+ jobId +:+ "_container" in
  let image := "buildkite_" +:+ jobId +:+ "_image" in
  let dockerFile :=
    match Env sh !! "BUILDKITE_DOCKER_FILE" with
    | Some "" | None => "Dockerfile"
    | Some v => v
    end in
  let build := ["build"; "-f"; dockerFile; "-t"; image; "."] in
  let sh1 :=
    mkShell (<["DOCKER_IMAGE" := image]>
               (<["DOCKER_CONTAINER" := container]> (Env sh)))
            (Wd sh)
            (Log sh ++ [ Warned dockerDeprecation;
                         Printed ("~~~ :docker: Building Docker image "
                                  +:+ image) ]) in
  exec sh1 "docker" build = Some e ->
  runDeprecatedDockerIntegration scriptPath sh =
  (Some e, logged sh1 [Ran "docker" build])
  /\ commands (runDeprecatedDockerIntegration scriptPath sh).2 =
     commands sh ++ [("docker", build)].
Proof.
  intros Hc Hd Hrel jobId container image dockerFile build sh1 Hbuild.
  assert (runDeprecatedDockerIntegration scriptPath sh =
          (Some e, logged sh1 [Ran "docker" build])) as E.
  { rewrite runDeprecatedDockerIntegration_cases, Hrel. cbv zeta.
    apply present_false in Hc. apply present_true in Hd. rewrite Hc, Hd.
    rewrite runDockerCommand_spec. cbv zeta. rewrite !Env_logged.
    subst sh1 build dockerFile image container jobId.
    unfold logged. cbn [Env Wd Log]. rewrite <- !app_assoc. cbn [app].
    by rewrite Hbuild. }
  split; [exact E|]. rewrite E. cbn [snd].
  rewrite commands_logged. unfold commands at 1, sh1. cbn [Log].
  rewrite omap_app. cbn. by rewrite app_nil_r.
Qed.

(** X6: in Docker mode, after a [docker build] that succeeds, the run
    phase starts [docker run --name <container> <image> ./<script>] and
    returns what that command returns; these two are the only commands. *)
Theorem docker_run_result_is_returned sh scriptPath relativePath :
  Env sh !! "BUILDKITE_DOCKER_COMPOSE_CONTAINER" = None ->
  is_Some (Env sh !! "BUILDKITE_DOCKER") ->
  filepath_Rel (Wd sh) scriptPath = inl relativePath ->
  let jobId := default "" (Env sh !! "BUILDKITE_JOB_ID") in
  let container := "buildkite_" +:+ jobId +:+ "_container" in
  let image := "buildkite_" +:+ jobId +:+ "_image" in
  let dockerFile :=
    match Env sh !! "BUILDKITE_DOCKER_FILE" with
    | Some "" | None => "Dockerfile"
    | Some v => v
    end in
  let build := ["build"; "-f"; dockerFile; "-t"; image; "."] in
  let run :=
    [ "run"; "--name"; container; image;
      "." +:+ String PathSeparator "" +:+ relativePath ] in
  let sh1 :=
    mkShell (<["DOCKER_IMAGE" := image]>
               (<["DOCKER_CONTAINER" := container]> (Env sh)))
            (Wd sh)
            (Log sh ++ [ Warned dockerDeprecation;
                         Printed ("~~~ :docker: Building Docker image "
                                  +:+ image) ]) in
  let sh2 :=
    logged sh1 [ Ran "docker" build;
                 Headed ":docker: Running command (in Docker container)" ] in
  exec sh1 "docker" build = None ->
  runDeprecatedDockerIntegration scriptPath sh =
  (exec sh2 "docker" run, logged sh2 [Ran "docker" run])
  /\ commands (runDeprecatedDockerIntegration scriptPath sh).2 =
     commands sh ++ [("docker", build); ("docker", run)].
Proof.
  intros Hc Hd Hrel jobId container image dockerFile build run sh1 sh2
    Hbuild.
  assert (runDeprecatedDockerIntegration scriptPath sh =
          (exec sh2 "docker" run, logged sh2 [Ran "docker" run])) as E.
  { rewrite runDeprecatedDockerIntegration_cases, Hrel. cbv zeta.
    apply present_false in Hc. apply present_true in Hd. rewrite Hc, Hd.
    rewrite runDockerCommand_spec. cbv zeta. rewrite !Env_logged.
    subst sh2 sh1 run build dockerFile image container jobId.
    unfold logged. cbn [Env Wd Log]. rewrite <- !app_assoc. cbn [app].
    by rewrite Hbuild. }
  split; [exact E|]. rewrite E. cbn [snd]. subst sh2.
  rewrite logged_logged, commands_logged. unfold commands at 1, sh1.
  cbn [Log]. rewrite omap_app. cbn. by rewrite app_nil_r.
Qed.

(** X7: in Docker Compose mode a failing [docker-compose build] ends the
    run phase: its error is returned and [docker-compose run] is not
    started, while [COMPOSE_PROJ_NAME] is in the environment already. The
    build names the compose container unless
    [BUILDKITE_DOCKER_COMPOSE_BUILD_ALL] reads true. *)
Theorem compose_build_failure_aborts sh scriptPath relativePath e :
  is_Some (Env sh !! "BUILDKITE_DOCKER_COMPOSE_CONTAINER") ->
  filepath_Rel (Wd sh) scriptPath = inl relativePath ->
  let composeContainer :=
    default "" (Env sh !! "BUILDKITE_DOCKER_COMPOSE_CONTAINER") in
  let jobId := default "" (Env sh !! "BUILDKITE_JOB_ID") in
  let projectName := strings.Replace ("buildkite" +:+ jobId) "-" "" (-1) in
  let env1 := <["COMPOSE_PROJ_NAME" := projectName]> (Env sh) in
  let sh1 :=
    mkShell env1 (Wd sh)
            (Log sh ++ [ Warned composeDeprecation;
                         Headed ":docker: Building Docker images" ]) in
  let build :=
    composeArgv env1 projectName
      (if GetBool env1 "BUILDKITE_DOCKER_COMPOSE_BUILD_ALL" false
       then ["build"; "--pull"]
       else ["build"; "--pull"; composeContainer]) in
  exec sh1 "docker-compose" build = Some e ->
  runDeprecatedDockerIntegration scriptPath sh =
  (Some e, logged sh1 [Ran "docker-compose" build])
  /\ commands (runDeprecatedDockerIntegration scriptPath sh).2 =
     commands sh ++ [("docker-compose", build)].
Proof.
  intros Hc Hrel composeContainer jobId projectName env1 sh1 build Hbuild.
  assert (runDeprecatedDockerIntegration scriptPath sh =
          (Some e, logged sh1 [Ran "docker-compose" build])) as E.
  { rewrite runDeprecatedDockerIntegration_cases, Hrel. cbv zeta.
    apply present_true in Hc. rewrite Hc.
    rewrite runDockerComposeCommand_spec. cbv zeta. rewrite !Env_logged.
    subst build sh1 env1 projectName jobId composeContainer.
    unfold logged. cbn [Env Wd Log]. rewrite <- !app_assoc. cbn [app].
    by rewrite Hbuild. }
  split; [exact E|]. rewrite E. cbn [snd].
  rewrite commands_logged. unfold commands at 1, sh1. cbn [Log].
  rewrite omap_app. cbn. by rewrite app_nil_r.
Qed.

(** X8: in Docker Compose mode, after a build that succeeds, the run
    phase starts [docker-compose ... run <container> ./<script>] for the
    same project and returns what that command returns; these two are the
    only commands. *)
Theorem compose_run_result_is_returned sh scriptPath relativePath :
  is_Some (Env sh !! "BUILDKITE_DOCKER_COMPOSE_CONTAINER") ->
  filepath_Rel (Wd sh) scriptPath = inl relativePath ->
  let composeContainer :=
    default "" (Env sh !! "BUILDKITE_DOCKER_COMPOSE_CONTAINER") in
  let jobId := default "" (Env sh !! "BUILDKITE_JOB_ID") in
  let projectName := strings.Replace ("buildkite" +:+ jobId) "-" "" (-1) in
  let env1 := <["COMPOSE_PROJ_NAME" := projectName]> (Env sh) in
  let sh1 :=
    mkShell env1 (Wd sh)
            (Log sh ++ [ Warned composeDeprecation;
                         Headed ":docker: Building Docker images" ]) in
  let build :=
    composeArgv env1 projectName
      (if GetBool env1 "BUILDKITE_DOCKER_COMPOSE_BUILD_ALL" false
       then ["build"; "--pull"]
       else ["build"; "--pull"; composeContainer]) in
  let run :=
    composeArgv env1 projectName
      [ "run"; composeContainer;
        "." +:+ String PathSeparator "" +:+ relativePath ] in
  let sh2 :=
    logged sh1
      [ Ran "docker-compose" build;
        Headed ":docker: Running command (in Docker Compose container)" ] in
  exec sh1 "docker-compose" build = None ->
  runDeprecatedDockerIntegration scriptPath sh =
  (exec sh2 "docker-compose" run, logged sh2 [Ran "docker-compose" run])
  /\ commands (runDeprecatedDockerIntegration scriptPath sh).2 =
     commands sh ++ [("docker-compose", build); ("docker-compose", run)].
Proof.
  intros Hc Hrel composeContainer jobId projectName env1 sh1 build run sh2
    Hbuild.
  assert (runDeprecatedDockerIntegration scriptPath sh =
          (exec sh2 "docker-compose" run,
           logged sh2 [Ran "docker-compose" run])) as E.
  { rewrite runDeprecatedDockerIntegration_cases, Hrel. cbv zeta.
    apply present_true in Hc. rewrite Hc.
    rewrite runDockerComposeCommand_spec. cbv zeta. rewrite !Env_logged.
    subst sh2 run build sh1 env1 projectName jobId composeContainer.
    unfold logged. cbn [Env Wd Log]. rewrite <- !app_assoc. cbn [app].
    by rewrite Hbuild. }
  split; [exact E|]. rewrite E. cbn [snd]. subst sh2.
  rewrite logged_logged, commands_logged. unfold commands at 1, sh1.
  cbn [Log]. rewrite omap_app. cbn. by rewrite app_nil_r.
Qed.

(** X9: a [BUILDKITE_DOCKER_COMPOSE_FILE] that is not empty but holds
    white space only gives no [-f] argument at all: the default
    [docker-compose.yml] is for the empty value alone. *)
Theorem blank_compose_file_gives_no_files sh projectName commandArgs v :
  Env sh !! "BUILDKITE_DOCKER_COMPOSE_FILE" = Some v ->
  v <> "" ->
  allSpace v = true ->
  let argv :=
    ["-p"; projectName]
    ++ (if GetBool (Env sh) "BUILDKITE_AGENT_DEBUG" false
        then ["--verbose"] else [])
    ++ commandArgs in
  runDockerCompose projectName commandArgs sh =
  (exec sh "docker-compose" argv, logged sh [Ran "docker-compose" argv]).
Proof.
  intros Hv Hne Hblank argv.
  rewrite runDockerCompose_spec. unfold composeArgv. rewrite Hv.
  pose proof (composeFileArgs_value v [] Hblank eq_refl) as F.
  cbn [spaced map concat] in F. rewrite str_app_nil_r in F.
  destruct v as [|c w]; [done|]. cbv beta iota. by rewrite F.
Qed.

Lemma Env_run_docker_mode sh scriptPath relativePath :
  Env sh !! "BUILDKITE_DOCKER_COMPOSE_CONTAINER" = None ->
  is_Some (Env sh !! "BUILDKITE_DOCKER") ->
  filepath_Rel (Wd sh) scriptPath = inl relativePath ->
  let jobId := default "" (Env sh !! "BUILDKITE_JOB_ID") in
  Env (runDeprecatedDockerIntegration scriptPath sh).2 =
  <["DOCKER_IMAGE" := "buildkite_" +:+ jobId +:+ "_image"]>
    (<["DOCKER_CONTAINER" := "buildkite_" +:+ jobId +:+ "_container"]>
       (Env sh)).
Proof.
  intros Hc Hd Hrel jobId.
  rewrite runDeprecatedDockerIntegration_cases, Hrel. cbv zeta.
  apply present_false in Hc. apply present_true in Hd. rewrite Hc, Hd.
  by rewrite Env_runDockerCommand, Env_logged.
Qed.

Lemma Env_run_compose_mode sh scriptPath relativePath :
  is_Some (Env sh !! "BUILDKITE_DOCKER_COMPOSE_CONTAINER") ->
  filepath_Rel (Wd sh) scriptPath = inl relativePath ->
  Env (runDeprecatedDockerIntegration scriptPath sh).2 =
  <["COMPOSE_PROJ_NAME" :=
      strings.Replace
        ("buildkite" +:+ default "" (Env sh !! "BUILDKITE_JOB_ID"))
        "-" "" (-1)]> (Env sh).
Proof.
  intros Hc Hrel.
  rewrite runDeprecatedDockerIntegration_cases, Hrel. cbv zeta.
  apply present_true in Hc. rewrite Hc.
  by rewrite Env_runDockerComposeCommand, Env_logged.
Qed.

(** X10: after a run phase in Docker mode, however its commands ended, a
    teardown runs exactly [docker rm -f -v buildkite_<job id>_container],
    the name the run phase gave to [docker run --name]; a
    [COMPOSE_PROJ_NAME] left in the environment is not looked at. *)
Theorem docker_run_then_tearDown sh scriptPath relativePath :
  Env sh !! "BUILDKITE_DOCKER_COMPOSE_CONTAINER" = None ->
  is_Some (Env sh !! "BUILDKITE_DOCKER") ->
  filepath_Rel (Wd sh) scriptPath = inl relativePath ->
  let container :=
    "buildkite_" +:+ default "" (Env sh !! "BUILDKITE_JOB_ID")
    +:+ "_container" in
  let sh' := (runDeprecatedDockerIntegration scriptPath sh).2 in
  commands (tearDownDeprecatedDockerIntegration sh').2 =
  commands sh' ++ [("docker", ["rm"; "-f"; "-v"; container])].
Proof.
  intros Hc Hd Hrel container sh'.
  destruct (tearDown_effect sh') as [_ ->]. f_equal.
  unfold tearDownCommands. subst sh'.
  rewrite (Env_run_docker_mode _ _ _ Hc Hd Hrel). cbv zeta.
  rewrite lookup_insert_ne by done. by rewrite lookup_insert_eq.
Qed.

(** X11: after a run phase in Docker Compose mode, from an environment
    without [DOCKER_CONTAINER], a teardown runs [kill], [rm --force --all]
    (with [-v] unless the volumes are to be left) and [down] for the
    project name the run phase computed and used. *)
Theorem compose_run_then_tearDown sh scriptPath relativePath :
  is_Some (Env sh !! "BUILDKITE_DOCKER_COMPOSE_CONTAINER") ->
  filepath_Rel (Wd sh) scriptPath = inl relativePath ->
  Env sh !! "DOCKER_CONTAINER" = None ->
  let projectName :=
    strings.Replace
      ("buildkite" +:+ default "" (Env sh !! "BUILDKITE_JOB_ID"))
      "-" "" (-1) in
  let sh' := (runDeprecatedDockerIntegration scriptPath sh).2 in
  let compose := composeArgv (Env sh') projectName in
  commands (tearDownDeprecatedDockerIntegration sh').2 =
  commands sh' ++
  [ ("docker-compose", compose ["kill"]);
    ("docker-compose",
     compose (["rm"; "--force"; "--all"]
              ++ (if GetBool (Env sh')
                       "BUILDKITE_DOCKER_COMPOSE_LEAVE_VOLUMES" false
                  then [] else ["-v"])));
    ("docker-compose", compose ["down"]) ].
Proof.
  intros Hc Hrel Hd projectName sh' compose.
  destruct (tearDown_effect sh') as [_ ->]. f_equal.
  unfold tearDownCommands. subst compose.
  assert (Env sh' = <["COMPOSE_PROJ_NAME" := projectName]> (Env sh)) as ->
    by apply (Env_run_compose_mode _ _ _ Hc Hrel).
  rewrite lookup_insert_ne by done. rewrite Hd.
  by rewrite lookup_insert_eq.
Qed.

(** X12: the run phase does not clear [DOCKER_CONTAINER]. When it is in
    the environment before a run in Docker Compose mode, the teardown
    afterwards removes that container and runs no [docker-compose]
    command: the compose project is not cleaned up. *)
Theorem stale_container_hides_compose_project sh scriptPath relativePath c :
  is_Some (Env sh !! "BUILDKITE_DOCKER_COMPOSE_CONTAINER") ->
  filepath_Rel (Wd sh) scriptPath = inl relativePath ->
  Env sh !! "DOCKER_CONTAINER" = Some c ->
  let sh' := (runDeprecatedDockerIntegration scriptPath sh).2 in
  is_Some (Env sh' !! "COMPOSE_PROJ_NAME")
  /\ commands (tearDownDeprecatedDockerIntegration sh').2 =
     commands sh' ++ [("docker", ["rm"; "-f"; "-v"; c])].
Proof.
  intros Hc Hrel Hd sh'.
  assert (Env sh' =
          <["COMPOSE_PROJ_NAME" :=
              strings.Replace
                ("buildkite" +:+ default "" (Env sh !! "BUILDKITE_JOB_ID"))
                "-" "" (-1)]> (Env sh)) as E
    by apply (Env_run_compose_mode _ _ _ Hc Hrel).
  split.
  - rewrite E, lookup_insert_eq. by eexists.
  - destruct (tearDown_effect sh') as [_ ->]. f_equal.
    unfold tearDownCommands. rewrite E.
    rewrite lookup_insert_ne by done. by rewrite Hd.
Qed.

(** X13: [BUILDKITE_DOCKER_FILE] is one of the variables detection looks
    for, but no case of the [switch] is about it: when it is the only one
    set, detection answers true while the run phase fails with the generic
    error, without a warning and without a command. *)
Theorem docker_file_alone_fails_silently sh scriptPath relativePath :
  is_Some (Env sh !! "BUILDKITE_DOCKER_FILE") ->
  (forall k, k ∈ dockerEnv -> k <> "BUILDKITE_DOCKER_FILE" ->
             Env sh !! k = None) ->
  filepath_Rel (Wd sh) scriptPath = inl relativePath ->
  (hasDeprecatedDockerIntegration sh).1 = true
  /\ runDeprecatedDockerIntegration scriptPath sh =
     (Some (errors_New "Failed to find any docker env"), sh).
Proof.
  intros Hf Hnone Hrel. split.
  - apply detection_present. exists "BUILDKITE_DOCKER_FILE".
    split; [unfold dockerEnv; in_list | done].
  - rewrite runDeprecatedDockerIntegration_cases, Hrel. cbv zeta.
    assert (forall k, k ∈ dockerEnv -> k <> "BUILDKITE_DOCKER_FILE" ->
                      present sh k = false) as Hp
      by (intros k Hk Hne; apply present_false; auto).
    rewrite !Hp by (unfold dockerEnv; solve [done | in_list]). done.
Qed.

Lemma shell_runDockerCommand scriptPath sh :
  Wd (runDockerCommand scriptPath sh).2 = Wd sh
  /\ Log sh `prefix_of` Log (runDockerCommand scriptPath sh).2.
Proof.
  rewrite runDockerCommand_spec. cbv zeta.
  destruct (exec _ "docker" _); cbn [snd]; unfold logged; cbn [Wd Log];
    (split; [done|]); rewrite <- !app_assoc; by eexists.
Qed.

Lemma shell_runDockerComposeCommand scriptPath sh :
  Wd (runDockerComposeCommand scriptPath sh).2 = Wd sh
  /\ Log sh `prefix_of` Log (runDockerComposeCommand scriptPath sh).2.
Proof.
  rewrite runDockerComposeCommand_spec. cbv zeta.
  destruct (exec _ "docker-compose" _); cbn [snd]; unfold logged;
    cbn [Wd Log]; (split; [done|]); rewrite <- !app_assoc; by eexists.
Qed.

(** X14: the run phase only adds: the working directory is kept, what the
    shell has logged so far stays at the front of the log, and no variable
    other than [DOCKER_CONTAINER], [DOCKER_IMAGE] and [COMPOSE_PROJ_NAME]
    is set, changed or removed. *)
Theorem run_keeps_the_rest sh scriptPath k :
  k <> "DOCKER_CONTAINER" -> k <> "DOCKER_IMAGE" ->
  k <> "COMPOSE_PROJ_NAME" ->
  let sh' := (runDeprecatedDockerIntegration scriptPath sh).2 in
  Env sh' !! k = Env sh !! k
  /\ Wd sh' = Wd sh
  /\ Log sh `prefix_of` Log sh'.
Proof.
  intros Hc Hi Hp sh'. subst sh'.
  rewrite runDeprecatedDockerIntegration_cases.
  destruct (filepath_Rel (Wd sh) scriptPath) as [relativePath|err];
    [|done].
  cbv zeta.
  destruct (present sh "BUILDKITE_DOCKER_COMPOSE_CONTAINER").
  { rewrite Env_runDockerComposeCommand, Env_logged.
    rewrite lookup_insert_ne by done. split; [done|].
    destruct (shell_runDockerComposeCommand
                ("." +:+ String PathSeparator "" +:+ relativePath)
                (logged sh [Warned composeDeprecation])) as [-> [es ->]].
    split; [done|]. unfold logged. cbn [Log]. rewrite <- app_assoc.
    by eexists. }
  destruct (present sh "BUILDKITE_DOCKER").
  { rewrite Env_runDockerCommand, Env_logged. cbv zeta.
    rewrite !lookup_insert_ne by done. split; [done|].
    destruct (shell_runDockerCommand
                ("." +:+ String PathSeparator "" +:+ relativePath)
                (logged sh [Warned dockerDeprecation])) as [-> [es ->]].
    split; [done|]. unfold logged. cbn [Log]. rewrite <- app_assoc.
    by eexists. }
  repeat case_match; cbn [snd]; unfold warnedNotSet, logged; cbn [Env Wd Log];
    (split; [done|]); (split; [done|]);
    first [by eexists | by exists []; rewrite app_nil_r].
Qed.

Lemma removeHyphens_none s :
  hasByte "-" s = false -> removeHyphens s = s.
Proof.
  induction s as [|c s IH]; [done|]. cbn [hasByte removeHyphens].
  intros [Hc Hs]%orb_false_iff. rewrite Hc. by rewrite IH.
Qed.

Lemma hasByte_removeHyphens s : hasByte "-" (removeHyphens s) = false.
Proof.
  induction s as [|c s IH]; [done|]. cbn [removeHyphens].
  destruct (Ascii.eqb c "-") eqn:Hc; [done|].
  cbn [hasByte]. by rewrite Hc, IH.
Qed.

(** X15: whatever the job id, the project name the compose path writes to
    [COMPOSE_PROJ_NAME] holds no hyphen; a job id without hyphens is taken
    over unchanged after [buildkite], underscores included, and without a
    job id the name is [buildkite]. *)
Theorem project_name_has_no_hyphen sh scriptPath :
  let jobId := default "" (Env sh !! "BUILDKITE_JOB_ID") in
  exists name,
    Env (runDockerComposeCommand scriptPath sh).2 !! "COMPOSE_PROJ_NAME"
    = Some name
    /\ hasByte "-" name = false
    /\ (hasByte "-" jobId = false -> name = "buildkite" +:+ jobId).
Proof.
  intros jobId. eexists.
  rewrite Env_runDockerComposeCommand, lookup_insert_eq.
  split; [reflexivity|]. fold jobId.
  rewrite Replace_hyphens. split; [apply hasByte_removeHyphens|].
  intros Hj. rewrite removeHyphens_app. by rewrite (removeHyphens_none jobId).
Qed.

(** X16: the run phase returns no error only after it has run two
    commands, a build and then a run, in Docker Compose mode or in Docker
    mode; in every other case it returns an error. *)
Theorem success_means_build_and_run sh scriptPath :
  (runDeprecatedDockerIntegration scriptPath sh).1 = None ->
  (is_Some (Env sh !! "BUILDKITE_DOCKER_COMPOSE_CONTAINER")
   \/ is_Some (Env sh !! "BUILDKITE_DOCKER"))
  /\ exists b r,
       commands (runDeprecatedDockerIntegration scriptPath sh).2
       = commands sh ++ [b; r]
       /\ b.1 = r.1 /\ "build" ∈ b.2 /\ "run" ∈ r.2.
Proof.
  rewrite runDeprecatedDockerIntegration_cases.
  destruct (filepath_Rel (Wd sh) scriptPath) as [relativePath|err];
    [|done].
  cbv zeta.
  destruct (present sh "BUILDKITE_DOCKER_COMPOSE_CONTAINER") eqn:Hc.
  { apply present_true in Hc. rewrite runDockerComposeCommand_spec.
    cbv zeta. destruct (exec _ "docker-compose" _) as [e|]; [done|].
    cbn [fst snd]. intros _. split; [by left|].
    unfold commands, logged. cbn [Log].
    rewrite !omap_app. cbn [omap app]. rewrite !app_nil_r, <- !app_assoc.
    cbn [app].
    do 2 eexists. split; [reflexivity|]. cbn [fst snd]. split; [done|].
    unfold composeArgv. rewrite !elem_of_app.
    split; right; right; right; [|in_list].
    destruct (GetBool _ "BUILDKITE_DOCKER_COMPOSE_BUILD_ALL" false);
      in_list. }
  destruct (present sh "BUILDKITE_DOCKER") eqn:Hd.
  { apply present_true in Hd. rewrite runDockerCommand_spec.
    cbv zeta. destruct (exec _ "docker" _) as [e|]; [done|].
    cbn [fst snd]. intros _. split; [by right|].
    unfold commands, logged. cbn [Log].
    rewrite !omap_app. cbn [omap app]. rewrite !app_nil_r, <- !app_assoc.
    cbn [app].
    do 2 eexists. split; [reflexivity|]. cbn [fst snd]. split; [done|].
    split; in_list. }
  by repeat case_match.
Qed.

(** *** Every path handed to [docker-compose] *)

Lemma hasByte_app c s t : hasByte c (s +:+ t) = hasByte c s || hasByte c t.
Proof.
  induction s as [|b s IH]; [done|].
  rewrite str_app_cons. cbn [hasByte]. by rewrite IH, orb_assoc.
Qed.

Lemma split_go_nonempty sep cur s : strings.split_go sep cur s <> [].
Proof.
  revert cur. induction s as [|c s IH]; intros cur; [done|].
  cbn [strings.split_go]. by destruct (Ascii.eqb c sep).
Qed.

Lemma Join_cons e es sep :
  es <> [] -> strings.Join (e :: es) sep = e +:+ sep +:+ strings.Join es sep.
Proof. by destruct es. Qed.

Lemma Join_split_go sep cur s :
  strings.Join (strings.split_go sep cur s) (String sep "") = cur +:+ s.
Proof.
  revert cur. induction s as [|c s IH]; intros cur;
    [cbn; by rewrite str_app_nil_r|].
  cbn [strings.split_go]. destruct (Ascii.eqb c sep) eqn:Hc.
  - apply Ascii.eqb_eq in Hc as ->.
    rewrite Join_cons by apply split_go_nonempty. by rewrite IH.
  - rewrite IH. by rewrite str_app_assoc.
Qed.

Lemma split_go_pieces sep cur s :
  hasByte sep cur = false ->
  Forall (fun piece => hasByte sep piece = false) (strings.split_go sep cur s).
Proof.
  revert cur. induction s as [|c s IH]; intros cur Hcur.
  - by constructor.
  - cbn [strings.split_go]. destruct (Ascii.eqb c sep) eqn:Hc.
    + constructor; [done|]. by apply IH.
    + apply IH. rewrite hasByte_app, Hcur. cbn [hasByte]. by rewrite Hc.
Qed.

Lemma noSpace_Join_inv paths :
  noSpace (strings.Join paths ":") = true ->
  Forall (fun p => noSpace p = true) paths.
Proof.
  induction paths as [|p ps IH]; [by constructor|].
  destruct ps as [|q qs]; [by repeat constructor|].
  rewrite Join_cons by done.
  change (p +:+ ":" +:+ strings.Join (q :: qs) ":")
    with (p +:+ String ":" (strings.Join (q :: qs) ":")).
  rewrite noSpace_app by done. rewrite noSpace_colon.
  intros [Hp Hps]%andb_true_iff. constructor; [done|]. by apply IH.
Qed.

(** The pieces of a chunk without white space are paths, and joined by
    colons they give the chunk back. *)
Lemma Split_chunk chunk :
  noSpace chunk = true ->
  strings.Join (strings.Split chunk ":") ":" = chunk
  /\ Forall (fun p => isPath p = true) (strings.Split chunk ":").
Proof.
  intros Hc. unfold strings.Split.
  pose proof (Join_split_go ":" "" chunk) as J. split; [exact J|].
  pose proof (split_go_pieces ":" "" chunk eq_refl) as Hcolon.
  assert (Forall (fun p => noSpace p = true)
                 (strings.split_go ":" "" chunk)) as Hspace.
  { apply noSpace_Join_inv. by rewrite J. }
  apply Forall_forall. intros p Hp. unfold isPath.
  rewrite Forall_forall in Hcolon, Hspace.
  by rewrite (Hspace p Hp), (Hcolon p Hp).
Qed.

(** Cutting a string after its first rune, or later, does not change
    what that rune decodes to. *)
Lemma DecodeRuneInString_prefix u t :
  ((utf8.DecodeRuneInString (u +:+ t)).2 <= String.length u)%nat ->
  utf8.DecodeRuneInString u = utf8.DecodeRuneInString (u +:+ t).
Proof.
  destruct u as [|c0 u].
  { destruct t as [|d t]; [done|]. intros H.
    pose proof (DecodeRuneInString_width d t) as Hw. cbv zeta in Hw.
    change ("" +:+ String d t) with (String d t) in H.
    cbn [String.length] in H. lia. }
  rewrite str_app_cons. unfold utf8.DecodeRuneInString.
  destruct (utf8.byte c0 <? 128); [done|].
  destruct (utf8.first (utf8.byte c0)) as [[[sz lo] hi]|] eqn:Hf; [|done].
  apply first_cases in Hf as (Hsz & _ & _).
  destruct Hsz as [-> | [-> | ->]];
    destruct u as [|c1 [|c2 [|c3 u]]];
    destruct t as [|d0 [|d1 [|d2 t]]];
    rewrite ?str_app_cons, ?str_app_nil_r;
    change ("" +:+ ?x) with x;
    cbn [String.length Nat.ltb Nat.leb];
    repeat (case_match; try done);
    cbn [snd String.length]; intros; try done; lia.
Qed.

Lemma range_go_dropBytes k s :
  (k <= String.length s)%nat ->
  utf8.range_go k s = utf8.range (dropBytes k s).
Proof.
  revert k. induction s as [|c s IH]; intros [|k] Hk.
  - reflexivity.
  - cbn in Hk. lia.
  - reflexivity.
  - cbn [utf8.range_go dropBytes]. apply IH. cbn in Hk. lia.
Qed.

Lemma str_length_app s t :
  String.length (s +:+ t) = (String.length s + String.length t)%nat.
Proof.
  induction s as [|c s IH]; [done|].
  rewrite str_app_cons. cbn [String.length]. by rewrite IH.
Qed.

Lemma dropBytes_app s t : dropBytes (String.length s) (s +:+ t) = t.
Proof. induction s as [|c s IH]; [by destruct t|]. by rewrite str_app_cons. Qed.

Lemma substring_length_app s t :
  String.substring 0 (String.length s) (s +:+ t) = s.
Proof.
  induction s as [|c s IH]; [by destruct t|].
  rewrite str_app_cons. cbn [String.length String.substring].
  by rewrite IH.
Qed.

Lemma length_substring w s :
  (w <= String.length s)%nat ->
  String.length (String.substring 0 w s) = w.
Proof.
  revert w. induction s as [|c s IH]; intros [|w] Hw; cbn in Hw;
    try done; try lia.
  cbn [String.substring String.length]. rewrite IH; lia.
Qed.

(** The first rune of a string, its bytes, and the runes of the rest. *)
Lemma range_first s r bs rs :
  utf8.range s = (r, bs) :: rs ->
  exists t,
    s = bs +:+ t /\ utf8.range t = rs
    /\ utf8.DecodeRuneInString s = (r, String.length bs)
    /\ bs <> "".
Proof.
  destruct s as [|c s]; [done|].
  unfold utf8.range. cbn [utf8.range_go].
  pose proof (DecodeRuneInString_width c s) as Hw. cbv zeta in Hw.
  destruct (utf8.DecodeRuneInString (String c s)) as [r' w] eqn:E.
  cbn [snd] in Hw. destruct w as [|w]; [lia|].
  replace (S w - 1)%nat with w by lia. cbn [String.substring].
  intros [= <- <- <-]. exists (dropBytes w s).
  split; [by rewrite str_app_cons, substring_dropBytes by lia|].
  split; [symmetry; apply range_go_dropBytes; lia|].
  cbn [String.length]. by rewrite length_substring by lia.
Qed.

Lemma range_cons_bytes r bs t :
  bs <> "" ->
  utf8.DecodeRuneInString (bs +:+ t) = (r, String.length bs) ->
  utf8.range (bs +:+ t) = (r, bs) :: utf8.range t.
Proof.
  intros Hbs E. destruct bs as [|c bs]; [done|].
  rewrite str_app_cons in *. unfold utf8.range at 1.
  cbn [utf8.range_go]. rewrite E.
  rewrite <- str_app_cons, substring_length_app. f_equal.
  cbn [String.length]. replace (S (String.length bs) - 1)%nat
    with (String.length bs) by lia.
  rewrite range_go_dropBytes by (rewrite str_length_app; lia).
  by rewrite dropBytes_app.
Qed.

Lemma runeBytes_app rs1 rs2 :
  runeBytes (rs1 ++ rs2) = runeBytes rs1 +:+ runeBytes rs2.
Proof.
  induction rs1 as [|[r bs] rs1 IH]; [done|].
  change (runeBytes (((r, bs) :: rs1) ++ rs2))
    with (bs +:+ runeBytes (rs1 ++ rs2)).
  change (runeBytes ((r, bs) :: rs1)) with (bs +:+ runeBytes rs1).
  by rewrite IH, str_app_assoc.
Qed.

(** The runes of a string from a rune boundary on are the runes of the
    bytes from there on. *)
Lemma range_suffix s rs1 rs2 :
  utf8.range s = rs1 ++ rs2 -> utf8.range (runeBytes rs2) = rs2.
Proof.
  revert s. induction rs1 as [|[r bs] rs1 IH]; intros s H.
  - cbn [app] in H. by rewrite <- H, runeBytes_range.
  - cbn [app] in H. apply range_first in H as (t & _ & Ht & _).
    by apply (IH t).
Qed.

(** The runes of a string up to a rune boundary are the runes of the bytes
    up to there. *)
Lemma range_prefix s rs1 rs2 :
  utf8.range s = rs1 ++ rs2 -> utf8.range (runeBytes rs1) = rs1.
Proof.
  revert s. induction rs1 as [|[r bs] rs1 IH]; intros s H; [done|].
  cbn [app] in H. apply range_first in H as (t & -> & Ht & E & Hbs).
  pose proof (IH t Ht) as IH'.
  change (runeBytes ((r, bs) :: rs1)) with (bs +:+ runeBytes rs1).
  assert (t = runeBytes rs1 +:+ runeBytes rs2) as Et
    by (by rewrite <- runeBytes_app, <- Ht, runeBytes_range).
  rewrite (range_cons_bytes r); [by rewrite IH'|done|].
  rewrite Et, <- str_app_assoc in E.
  rewrite (DecodeRuneInString_prefix (bs +:+ runeBytes rs1) (runeBytes rs2));
    [done|].
  rewrite E. cbn [snd]. rewrite str_length_app. lia.
Qed.

Lemma range_middle s rs1 rs2 rs3 :
  utf8.range s = rs1 ++ rs2 ++ rs3 -> utf8.range (runeBytes rs2) = rs2.
Proof.
  intros H. apply range_suffix in H. by apply range_prefix in H.
Qed.

(** Every field [strings.FieldsFunc] returns is made of the bytes of a run
    of runes, none of which satisfies [f]. *)
Lemma fields_go_runs f pre run rs x :
  forallb (fun rb => negb (f rb.1)) run = true ->
  x ∈ strings.fields_go f
        (match run with [] => None | _ => Some (runeBytes run) end) rs ->
  exists pre' run' post',
    pre ++ run ++ rs = pre' ++ run' ++ post'
    /\ run' <> []
    /\ forallb (fun rb => negb (f rb.1)) run' = true
    /\ x = runeBytes run'.
Proof.
  revert pre run. induction rs as [|[r bs] rs IH]; intros pre run Hrun Hx.
  - cbn [strings.fields_go] in Hx. destruct run as [|rb run].
    + by apply not_elem_of_nil in Hx.
    + cbn [strings.flush] in Hx. apply list_elem_of_singleton in Hx.
      exists pre, (rb :: run), []. by repeat split.
  - cbn [strings.fields_go] in Hx. destruct (f r) eqn:Hr.
    + apply elem_of_app in Hx as [Hx|Hx].
      * destruct run as [|rb run].
        -- by apply not_elem_of_nil in Hx.
        -- cbn [strings.flush] in Hx. apply list_elem_of_singleton in Hx.
           exists pre, (rb :: run), ((r, bs) :: rs). by repeat split.
      * destruct (IH (pre ++ run ++ [(r, bs)]) [] eq_refl Hx)
          as (pre' & run' & post' & E & Hne & Hall & ->).
        exists pre', run', post'. split; [|done].
        rewrite <- E. cbn [app]. by rewrite <- !app_assoc.
    + assert (from_option (fun c => c +:+ bs) bs
                (match run with [] => None | _ => Some (runeBytes run) end)
              = runeBytes (run ++ [(r, bs)])) as Ecur.
      { rewrite runeBytes_app.
        change (runeBytes [(r, bs)]) with (bs +:+ "").
        rewrite str_app_nil_r. by destruct run. }
      rewrite Ecur in Hx.
      destruct (IH pre (run ++ [(r, bs)])) as
        (pre' & run' & post' & E & Hne & Hall & ->).
      * rewrite forallb_app, Hrun. cbn. by rewrite Hr.
      * by destruct run.
      * exists pre', run', post'. split; [|done].
        rewrite <- E. by rewrite <- !app_assoc.
Qed.

(** The fields of any string are not empty and hold no white space. *)
Lemma Fields_are_chunks v :
  Forall (fun x => x <> "" /\ noSpace x = true) (strings.Fields v).
Proof.
  apply Forall_forall. intros x Hx.
  unfold strings.Fields, strings.FieldsFunc in Hx.
  destruct (fields_go_runs unicode.IsSpace [] [] (utf8.range v) x eq_refl Hx)
    as (pre & run & post & E & Hne & Hall & ->).
  cbn [app] in E. apply range_middle in E.
  split.
  - intros H. rewrite H in E. by rewrite <- E in Hne.
  - unfold noSpace. by rewrite E.
Qed.

Lemma composeFileArgs_paths v :
  exists paths,
    composeFileArgs v = fPairs paths
    /\ Forall (fun p => isPath p = true) paths.
Proof.
  exists (flat_map (fun chunk => strings.Split chunk ":") (strings.Fields v)).
  split; [apply composeFileArgs_spec|].
  pose proof (Fields_are_chunks v) as H.
  induction H as [|chunk chunks [_ Hc] _ IH]; [by constructor|].
  cbn [flat_map]. apply Forall_app. split; [|done].
  by apply Split_chunk.
Qed.

Lemma Fields_single v :
  v <> "" -> noSpace v = true -> strings.Fields v = [v].
Proof.
  intros Hne Hv. unfold strings.Fields, strings.FieldsFunc.
  rewrite <- (app_nil_r (utf8.range v)).
  by rewrite fields_go_chunk.
Qed.

(** X17: whatever [BUILDKITE_DOCKER_COMPOSE_FILE] holds, the arguments of
    [docker-compose] start with [-f <path>] pairs, then [-p <project>],
    then [--verbose] when [BUILDKITE_AGENT_DEBUG] reads true, then the
    subcommand; and no path among them holds a colon or white space. *)
Theorem compose_arguments_are_paths sh projectName commandArgs :
  exists paths,
    Forall (fun p => isPath p = true) paths
    /\ let argv :=
         fPairs paths ++ ["-p"; projectName]
         ++ (if GetBool (Env sh) "BUILDKITE_AGENT_DEBUG" false
             then ["--verbose"] else [])
         ++ commandArgs in
       runDockerCompose projectName commandArgs sh =
       (exec sh "docker-compose" argv,
        logged sh [Ran "docker-compose" argv]).
Proof.
  rewrite runDockerCompose_spec. unfold composeArgv.
  destruct (composeFileArgs_paths
              (match Env sh !! "BUILDKITE_DOCKER_COMPOSE_FILE" with
               | Some "" | None => "docker-compose.yml"
               | Some v => v
               end)) as (paths & -> & Hpaths).
  by exists paths.
Qed.

Lemma length_split_go sep cur s :
  length (strings.split_go sep cur s) = S (countByte sep s).
Proof.
  revert cur. induction s as [|c s IH]; intros cur; [done|].
  cbn [strings.split_go countByte].
  destruct (Ascii.eqb c sep); cbn [length]; by rewrite IH.
Qed.

Lemma Forall_isPath_forallb paths :
  Forall (fun p => isPath p = true) paths -> forallb isPath paths = true.
Proof.
  induction 1 as [|p ps Hp _ IH]; [done|]. cbn [forallb]. by rewrite Hp, IH.
Qed.

(** X18: when [BUILDKITE_DOCKER_COMPOSE_FILE] holds no white space, all of
    it reaches [docker-compose]: the [-f] pairs are those of the one list
    of colon-free paths that, joined by colons, is the value. There is one
    path more than there are colons, so a colon at either end, or two
    colons in a row, give an empty path, which is passed on as it is. *)
Theorem compose_file_round_trip sh projectName commandArgs v :
  Env sh !! "BUILDKITE_DOCKER_COMPOSE_FILE" = Some v ->
  v <> "" ->
  noSpace v = true ->
  exists paths,
    strings.Join paths ":" = v
    /\ Forall (fun p => isPath p = true) paths
    /\ length paths = S (countByte ":" v)
    /\ (forall paths',
          strings.Join paths' ":" = v ->
          Forall (fun p => isPath p = true) paths' ->
          paths' = paths)
    /\ let argv :=
         fPairs paths ++ ["-p"; projectName]
         ++ (if GetBool (Env sh) "BUILDKITE_AGENT_DEBUG" false
             then ["--verbose"] else [])
         ++ commandArgs in
       runDockerCompose projectName commandArgs sh =
       (exec sh "docker-compose" argv,
        logged sh [Ran "docker-compose" argv]).
Proof.
  intros Hv Hne Hs. exists (strings.Split v ":").
  destruct (Split_chunk v Hs) as [HJ HP].
  split; [exact HJ|]. split; [exact HP|].
  split; [apply length_split_go|]. split.
  - intros paths' HJ' HP'. rewrite <- HJ'. symmetry.
    apply Split_Join; [|by apply Forall_isPath_forallb].
    intros ->. by rewrite <- HJ' in Hne.
  - rewrite runDockerCompose_spec. unfold composeArgv. rewrite Hv.
    assert (composeFileArgs v = fPairs (strings.Split v ":")) as E.
    { rewrite composeFileArgs_spec, Fields_single by done.
      cbn [flat_map]. by rewrite app_nil_r. }
    destruct v as [|c w]; [done|]. cbv beta iota. by rewrite E.
Qed.

End Bridge.

(** ** The statements at concrete inputs *)

Lemma compose_files_flattened_witness :
  runDockerCompose simpleGetBool execOk "buildkite42" ["kill"]
    composeFilesShell =
  (None,
   logged composeFilesShell
     [Ran "docker-compose"
        [ "-f"; "a.yml"; "-f"; "b.yml"; "-f"; "c.yml"; "-f"; "d.yml";
          "-p"; "buildkite42"; "kill" ]]).
Proof.
  refine (proj1 (compose_files_flattened simpleGetBool execOk
                   composeFilesShell "buildkite42" ["kill"] ""
                   [ (["a.yml"; "b.yml"], "  "); (["c.yml"; "d.yml"], "") ]
                   _ _) _ _);
    vm_compute; congruence.
Defined.

Lemma compose_container_takes_precedence_witness :
  selected (dockerSwitch simpleGetBool execOk "./script.sh") bothShell
  = Some 0%nat
  /\ commands
       (runDeprecatedDockerIntegration simpleGetBool execOk relBelow "/"
          "/build/script.sh" bothShell).2
     = [ ("docker-compose",
          [ "-f"; "docker-compose.yml"; "-p"; "buildkiteabc123def";
            "build"; "--pull"; "app" ]);
         ("docker-compose",
          [ "-f"; "docker-compose.yml"; "-p"; "buildkiteabc123def";
            "run"; "app"; "./script.sh" ]) ].
Proof.
  split.
  - refine (proj1 (compose_container_takes_precedence simpleGetBool execOk
                     relBelow "/" bothShell "/build/script.sh" "script.sh"
                     _ _ _));
      vm_compute; eauto.
  - vm_compute. reflexivity.
Defined.

Lemma docker_scenario_witness :
  commands
    (runDeprecatedDockerIntegration simpleGetBool execOk relBelow "/"
       "/build/script.sh" dockerShell).2
  = [ ("docker",
       ["build"; "-f"; "Dockerfile"; "-t"; "buildkite_42_image"; "."]);
      ("docker",
       ["run"; "--name"; "buildkite_42_container"; "buildkite_42_image";
        "./script.sh"]) ]
  /\ Env (runDeprecatedDockerIntegration simpleGetBool execOk relBelow "/"
            "/build/script.sh" dockerShell).2 !! "DOCKER_CONTAINER"
     = Some "buildkite_42_container".
Proof.
  refine (docker_scenario simpleGetBool execOk relBelow "/" dockerShell
            "/build/script.sh" _ _ _ _ _ _ _);
    vm_compute; reflexivity.
Defined.

Lemma tearDown_compose_project_witness :
  (tearDownDeprecatedDockerIntegration simpleGetBool execDownFails
     projectShell).1 = Some "exit status 1"
  /\ commands
       (tearDownDeprecatedDockerIntegration simpleGetBool execDownFails
          projectShell).2
     = [ ("docker-compose",
          ["-f"; "docker-compose.yml"; "-p"; "buildkiteabc123def"; "kill"]);
         ("docker-compose",
          ["-f"; "docker-compose.yml"; "-p"; "buildkiteabc123def";
           "rm"; "--force"; "--all"; "-v"]);
         ("docker-compose",
          ["-f"; "docker-compose.yml"; "-p"; "buildkiteabc123def"; "down"]) ].
Proof.
  destruct (tearDown_compose_project simpleGetBool execDownFails projectShell
              "buildkiteabc123def") as [E C];
    [vm_compute; reflexivity | vm_compute; reflexivity |].
  split.
  - rewrite E. vm_compute. reflexivity.
  - rewrite C. vm_compute. reflexivity.
Defined.

Lemma tearDown_docker_container_witness :
  tearDownDeprecatedDockerIntegration simpleGetBool execFails containerShell
  = (Some "exit status 1",
     logged containerShell
       [ Printed "~~~ Cleaning up Docker containers";
         Ran "docker" ["rm"; "-f"; "-v"; "buildkite_42_container"] ]).
Proof.
  refine (proj1 (tearDown_docker_container simpleGetBool execFails
                   containerShell "buildkite_42_container" _)).
  vm_compute. reflexivity.
Defined.

Lemma dependent_flag_alone_warns_and_fails_witness :
  exists k,
    k ∈ [ "BUILDKITE_DOCKER_COMPOSE_FILE";
          "BUILDKITE_DOCKER_COMPOSE_BUILD_ALL";
          "BUILDKITE_DOCKER_COMPOSE_LEAVE_VOLUMES" ]
    /\ is_Some (Env loneFlagShell !! k)
    /\ runDeprecatedDockerIntegration simpleGetBool execOk relBelow "/"
         "/build/script.sh" loneFlagShell =
       (Some (errors_New "Failed to find any docker env"),
        logged loneFlagShell
          [Warned (k +:+ " is set, but without "
                     +:+ "BUILDKITE_DOCKER_COMPOSE_CONTAINER"
                     +:+ notSetAdvice)])
    /\ commands
         (runDeprecatedDockerIntegration simpleGetBool execOk relBelow "/"
            "/build/script.sh" loneFlagShell).2
       = commands loneFlagShell.
Proof.
  refine (dependent_flag_alone_warns_and_fails simpleGetBool execOk relBelow
            "/" loneFlagShell "/build/script.sh" "script.sh" _ _ _ _);
    try (vm_compute; reflexivity).
  left. vm_compute. eauto.
Defined.

Lemma nothing_set_nothing_run_witness :
  hasDeprecatedDockerIntegration emptyShell = (false, emptyShell)
  /\ runDeprecatedDockerIntegration simpleGetBool execOk relBelow "/"
       "/build/script.sh" emptyShell
     = (Some (errors_New "Failed to find any docker env"), emptyShell).
Proof.
  destruct (nothing_set_nothing_run simpleGetBool execOk relBelow "/"
              emptyShell "/build/script.sh") as (H & R & _).
  - intros k _. reflexivity.
  - split; [exact H | exact R].
Defined.

(** C7 as stated fails: with nothing set, the call does not succeed. *)
Lemma nothing_set_run_is_an_error :
  (forall k, k ∈ dockerEnv -> Env emptyShell !! k = None)
  /\ (hasDeprecatedDockerIntegration emptyShell).1 = false
  /\ (runDeprecatedDockerIntegration simpleGetBool execOk relBelow "/"
        "/build/script.sh" emptyShell).1
     = Some (errors_New "Failed to find any docker env")
  /\ (runDeprecatedDockerIntegration simpleGetBool execOk relBelow "/"
        "/build/script.sh" emptyShell).1 <> None.
Proof.
  split; [intros k _; reflexivity|].
  split; [reflexivity|]. split; [reflexivity|]. vm_compute. discriminate.
Qed.

(** C6 as stated fails in the text of the error: the one returned reads
    "Failed to find any docker env". *)
Lemma lone_flag_error_text :
  Env loneFlagShell !! "BUILDKITE_DOCKER_COMPOSE_CONTAINER" = None
  /\ Env loneFlagShell !! "BUILDKITE_DOCKER" = None
  /\ is_Some (Env loneFlagShell !! "BUILDKITE_DOCKER_COMPOSE_FILE")
  /\ (runDeprecatedDockerIntegration simpleGetBool execOk relBelow "/"
        "/build/script.sh" loneFlagShell).1
     = Some (errors_New "Failed to find any docker env")
  /\ (runDeprecatedDockerIntegration simpleGetBool execOk relBelow "/"
        "/build/script.sh" loneFlagShell).1
     <> Some (errors_New "no valid legacy docker configuration found").
Proof.
  split; [reflexivity|]. split; [reflexivity|].
  split; [vm_compute; eauto|]. split; [reflexivity|].
  vm_compute. discriminate.
Qed.

Lemma at_most_one_marker_witness :
  ~ (is_Some (Env (runDeprecatedDockerIntegration simpleGetBool execOk
                     relBelow "/" "/build/script.sh" bothShell).2
              !! "DOCKER_CONTAINER")
     /\ is_Some (Env (runDeprecatedDockerIntegration simpleGetBool execOk
                        relBelow "/" "/build/script.sh" bothShell).2
                 !! "COMPOSE_PROJ_NAME")).
Proof.
  refine (proj1 (at_most_one_marker simpleGetBool execOk relBelow "/"
                   bothShell "/build/script.sh" _ _));
    vm_compute; reflexivity.
Defined.

Lemma project_name_strips_hyphens_witness :
  Env (runDockerComposeCommand simpleGetBool execOk "./script.sh"
         bothShell).2 !! "COMPOSE_PROJ_NAME"
  = Some "buildkiteabc123def".
Proof.
  refine (proj2 (project_name_strips_hyphens simpleGetBool execOk bothShell
                   "./script.sh" "abc-123-def" _) _);
    vm_compute; reflexivity.
Defined.

Lemma path_failure_stops_everything_witness :
  runDeprecatedDockerIntegration simpleGetBool execOk relBelow "/"
    "script.sh" bothShell
  = (Some "Rel: can't make script.sh relative to /build", bothShell).
Proof.
  apply (path_failure_stops_everything simpleGetBool execOk relBelow "/"
           bothShell "script.sh").
  reflexivity.
Defined.

Lemma tearDown_without_markers_witness :
  tearDownDeprecatedDockerIntegration simpleGetBool execFails dockerShell
  = (None, dockerShell).
Proof.
  apply (tearDown_without_markers simpleGetBool execFails dockerShell);
    reflexivity.
Defined.

Lemma docker_build_failure_aborts_witness :
  commands
    (runDeprecatedDockerIntegration simpleGetBool execBuildFails relBelow
       "/" "/build/script.sh" customDockerShell).2
  = [ ("docker",
       ["build"; "-f"; "ci/Dockerfile"; "-t"; "buildkite_a-1_image"; "."]) ].
Proof.
  refine (proj2 (docker_build_failure_aborts simpleGetBool execBuildFails
                   relBelow "/" customDockerShell "/build/script.sh"
                   "script.sh" "exit status 1" _ _ _ _));
    vm_compute; eauto.
Defined.

Lemma docker_run_result_is_returned_witness :
  commands
    (runDeprecatedDockerIntegration simpleGetBool execOk relBelow "/"
       "/build/script.sh" customDockerShell).2
  = [ ("docker",
       ["build"; "-f"; "ci/Dockerfile"; "-t"; "buildkite_a-1_image"; "."]);
      ("docker",
       ["run"; "--name"; "buildkite_a-1_container"; "buildkite_a-1_image";
        "./script.sh"]) ].
Proof.
  refine (proj2 (docker_run_result_is_returned simpleGetBool execOk relBelow
                   "/" customDockerShell "/build/script.sh" "script.sh"
                   _ _ _ _));
    vm_compute; eauto.
Defined.

Lemma compose_build_failure_aborts_witness :
  commands
    (runDeprecatedDockerIntegration simpleGetBool execBuildFails relBelow
       "/" "/build/script.sh" composeShell).2
  = [ ("docker-compose",
       [ "-f"; "docker-compose.yml"; "-p"; "buildkiteabc123def";
         "build"; "--pull"; "app" ]) ].
Proof.
  refine (proj2 (compose_build_failure_aborts simpleGetBool execBuildFails
                   relBelow "/" composeShell "/build/script.sh" "script.sh"
                   "exit status 1" _ _ _));
    vm_compute; eauto.
Defined.

Lemma compose_run_result_is_returned_witness :
  commands
    (runDeprecatedDockerIntegration simpleGetBool execOk relBelow "/"
       "/build/script.sh" composeShell).2
  = [ ("docker-compose",
       [ "-f"; "docker-compose.yml"; "-p"; "buildkiteabc123def";
         "build"; "--pull"; "app" ]);
      ("docker-compose",
       [ "-f"; "docker-compose.yml"; "-p"; "buildkiteabc123def";
         "run"; "app"; "./script.sh" ]) ].
Proof.
  refine (proj2 (compose_run_result_is_returned simpleGetBool execOk
                   relBelow "/" composeShell "/build/script.sh" "script.sh"
                   _ _ _));
    vm_compute; eauto.
Defined.

Lemma blank_compose_file_gives_no_files_witness :
  runDockerCompose simpleGetBool execOk "buildkite42" ["down"]
    blankFilesShell
  = (None,
     logged blankFilesShell
       [Ran "docker-compose" ["-p"; "buildkite42"; "down"]]).
Proof.
  refine (blank_compose_file_gives_no_files simpleGetBool execOk
            blankFilesShell "buildkite42" ["down"] "  " _ _ _);
    vm_compute; congruence.
Defined.

Lemma docker_run_then_tearDown_witness :
  commands
    (tearDownDeprecatedDockerIntegration simpleGetBool execBuildFails
       (runDeprecatedDockerIntegration simpleGetBool execBuildFails relBelow
          "/" "/build/script.sh" customDockerShell).2).2
  = [ ("docker",
       ["build"; "-f"; "ci/Dockerfile"; "-t"; "buildkite_a-1_image"; "."]);
      ("docker", ["rm"; "-f"; "-v"; "buildkite_a-1_container"]) ].
Proof.
  refine (docker_run_then_tearDown simpleGetBool execBuildFails relBelow "/"
            customDockerShell "/build/script.sh" "script.sh" _ _ _);
    vm_compute; eauto.
Defined.

Lemma compose_run_then_tearDown_witness :
  commands
    (tearDownDeprecatedDockerIntegration simpleGetBool execBuildFails
       (runDeprecatedDockerIntegration simpleGetBool execBuildFails relBelow
          "/" "/build/script.sh" composeShell).2).2
  = [ ("docker-compose",
       [ "-f"; "docker-compose.yml"; "-p"; "buildkiteabc123def";
         "build"; "--pull"; "app" ]);
      ("docker-compose",
       ["-f"; "docker-compose.yml"; "-p"; "buildkiteabc123def"; "kill"]);
      ("docker-compose",
       [ "-f"; "docker-compose.yml"; "-p"; "buildkiteabc123def";
         "rm"; "--force"; "--all"; "-v" ]);
      ("docker-compose",
       ["-f"; "docker-compose.yml"; "-p"; "buildkiteabc123def"; "down"]) ].
Proof.
  refine (compose_run_then_tearDown simpleGetBool execBuildFails relBelow
            "/" composeShell "/build/script.sh" "script.sh" _ _ _);
    vm_compute; eauto.
Defined.

Lemma stale_container_hides_compose_project_witness :
  commands
    (tearDownDeprecatedDockerIntegration simpleGetBool execOk
       (runDeprecatedDockerIntegration simpleGetBool execOk relBelow "/"
          "/build/script.sh" staleShell).2).2
  = commands
      (runDeprecatedDockerIntegration simpleGetBool execOk relBelow "/"
         "/build/script.sh" staleShell).2
    ++ [("docker", ["rm"; "-f"; "-v"; "buildkite_41_container"])].
Proof.
  refine (proj2 (stale_container_hides_compose_project simpleGetBool execOk
                   relBelow "/" staleShell "/build/script.sh" "script.sh"
                   "buildkite_41_container" _ _ _));
    vm_compute; eauto.
Defined.

Lemma docker_file_alone_fails_silently_witness :
  (hasDeprecatedDockerIntegration dockerFileOnlyShell).1 = true
  /\ runDeprecatedDockerIntegration simpleGetBool execOk relBelow "/"
       "/build/script.sh" dockerFileOnlyShell
     = (Some (errors_New "Failed to find any docker env"),
        dockerFileOnlyShell).
Proof.
  refine (docker_file_alone_fails_silently simpleGetBool execOk relBelow "/"
            dockerFileOnlyShell "/build/script.sh" "script.sh" _ _ _).
  - vm_compute. eauto.
  - intros k Hk Hne. unfold dockerEnv in Hk.
    repeat (apply elem_of_cons in Hk as [-> | Hk]);
      [reflexivity | reflexivity | reflexivity | done
       | reflexivity | reflexivity | by apply not_elem_of_nil in Hk].
  - reflexivity.
Defined.

Lemma run_keeps_the_rest_witness :
  Env (runDeprecatedDockerIntegration simpleGetBool execOk relBelow "/"
         "/build/script.sh" bothShell).2 !! "BUILDKITE_JOB_ID"
  = Some "abc-123-def".
Proof.
  refine (proj1 (run_keeps_the_rest simpleGetBool execOk relBelow "/"
                   bothShell "/build/script.sh" "BUILDKITE_JOB_ID" _ _ _));
    discriminate.
Defined.

Lemma success_means_build_and_run_witness :
  is_Some (Env customDockerShell !! "BUILDKITE_DOCKER_COMPOSE_CONTAINER")
  \/ is_Some (Env customDockerShell !! "BUILDKITE_DOCKER").
Proof.
  refine (proj1 (success_means_build_and_run simpleGetBool execOk relBelow
                   "/" customDockerShell "/build/script.sh" _)).
  vm_compute. reflexivity.
Defined.

Lemma compose_file_round_trip_witness :
  runDockerCompose simpleGetBool execOk "buildkite42" ["kill"]
    colonFilesShell
  = (None,
     logged colonFilesShell
       [Ran "docker-compose"
          [ "-f"; ""; "-f"; "a.yml"; "-f"; ""; "-f"; "b.yml";
            "-p"; "buildkite42"; "kill" ]]).
Proof.
  destruct (compose_file_round_trip simpleGetBool execOk colonFilesShell
              "buildkite42" ["kill"] ":a.yml::b.yml")
    as (paths & _ & _ & _ & Hunique & Hrun);
    [vm_compute; reflexivity | discriminate | vm_compute; reflexivity |].
  rewrite <- (Hunique [""; "a.yml"; ""; "b.yml"]) in Hrun.
  - exact Hrun.
  - reflexivity.
  - repeat constructor.
Defined.
